(** * SwiftPass backend: inventory, checkout, payment reconciliation,
      ticket scanning and payout aggregation

    A shallow embedding of the reservation and reconciliation core of the
    backend:

    - the Event model: [reserveTickets], [releaseTickets], [paginate]
    - the Order model: validation and the [pre('save')] hook
    - the Ticket model: [activate], [scan]
    - the Payout model: validation and the [pre('save')] hook
    - the checkout controller: [createCheckout], [initiatePayment]
    - the payment service: [initiateSTKPush], [validateCallback]
    - the payment routes: [POST /callback]
    - the ticket controller: [scanTicket], [validateTicket]
    - the ticket-activation job: [activationWorker]
    - the payout job: [payoutWorker]

    Conventions of the embedding.

    - MongoDB collections are lists of documents in insertion order;
      [findOne]/[findById] return the first match, [save] and
      [findOneAndUpdate] replace the matching document in place.
    - [Model.create(doc)] is [new Model(doc).save()], and [save()] validates
      the document before it runs the [pre('save')] hooks of the schema:
      a [required] path that only such a hook would fill is still unset
      when the validator looks at it, and the document is rejected.
    - [populate(path)] fills a path that the schema declares.  The Ticket
      schema declares neither [event] nor [order] (the two virtuals are
      commented out in the model), so a ticket read with
      [.populate('event', ...)] has no [event] field.
    - Redis is a finite map from keys to entries carrying their expiry
      instant; a read at time [now] does not see an entry whose expiry has
      passed ([EX] seconds after the write).  [JSON.stringify]/[JSON.parse]
      pairs are the identity on the payloads stored.
    - Instants and durations are integers (milliseconds since the epoch,
      as [Date.getTime()]); inventory counters and quantities are integers.
      A handler reads the clock once; [now] is that reading.
    - Money is a JavaScript [Number].  The arithmetic the handlers use is
      collected in the class [JsNumber]; its instance [float_JsNumber] is
      IEEE-754 binary64, which is what the program runs on, and
      [Q_JsNumber] is the exact-arithmetic reading.
    - A handler is a function from the store to an outcome and a store.  A
      thrown exception keeps every write made before the [throw]: nothing
      is rolled back.
    - Every [await] is a point where another request may run.  Handlers
      whose properties are about overlapping requests are split into their
      phases at those points.
    - What the outside world decides is an argument of the handler: the
      fresh [_id] of a created document, the answer of the payment gateway. *)

From Stdlib Require Import ZArith QArith Floats Uint63 Ascii.
From stdpp Require Import gmap strings list.

Local Open Scope string_scope.
Local Open Scope Z_scope.
Set Warnings "-inexact-float".

(** ** JavaScript numbers *)

Class JsNumber (N : Type) := {
  nzero : N;
  nadd : N -> N -> N;
  nmul : N -> N -> N;
  nltb : N -> N -> bool;
  nleb : N -> N -> bool;
  nofZ : Z -> N;
  c0_05 : N;   (* the literal 0.05 *)
  c0_02 : N;   (* the literal 0.02 *)
  c0_95 : N    (* the literal 0.95 *)
}.

(** The integer [z] as a binary64 value (exact below 2^53). *)
Definition float_of_Z (z : Z) : float :=
  if z <? 0
  then PrimFloat.opp (PrimFloat.of_uint63 (Uint63.of_Z (- z)))
  else PrimFloat.of_uint63 (Uint63.of_Z z).

#[export] Instance float_JsNumber : JsNumber float := {
  nzero := 0%float;
  nadd := PrimFloat.add;
  nmul := PrimFloat.mul;
  nltb := PrimFloat.ltb;
  nleb := PrimFloat.leb;
  nofZ := float_of_Z;
  c0_05 := 0.05%float;
  c0_02 := 0.02%float;
  c0_95 := 0.95%float
}.

#[export] Instance Q_JsNumber : JsNumber Q := {
  nzero := 0%Q;
  nadd := Qplus;
  nmul := Qmult;
  nltb := fun a b => negb (Qle_bool b a);
  nleb := Qle_bool;
  nofZ := inject_Z;
  c0_05 := (5 # 100)%Q;
  c0_02 := (2 # 100)%Q;
  c0_95 := (95 # 100)%Q
}.

(** ** Status enumerations *)

Inductive EventStatus := ev_draft | ev_published | ev_cancelled | ev_completed.

Inductive PaymentStatus :=
  pay_pending | pay_processing | pay_completed | pay_failed | pay_refunded.

Inductive TicketStatus := not_active | valid | already_used | invalid | cancelled.

Inductive PayoutStatus :=
  po_pending | po_processing | po_completed | po_failed | po_cancelled.

(** ** Exceptions

    The messages are template strings; an exception is kept as the
    template it instantiates together with the interpolated values. *)

Inductive Exn :=
| ErrTierNotFound (tier : string)              (* `Tier "${tierName}" not found` *)
| ErrOnlyAvailable (available : Z) (tier : string)
                        (* `Only ${available} tickets available in tier "${tierName}"` *)
| AppError (msg : string) (statusCode : Z)
| AppErrorTierNotFound (tier : string) (statusCode : Z)
| AppErrorOnlyAvailable (available : Z) (tier : string) (statusCode : Z)
| AppErrorOrderAlready (st : PaymentStatus) (statusCode : Z)
                        (* `Order is already ${order.paymentStatus}` *)
| AppErrorPaymentInitiation (errorMessage : string) (statusCode : Z)
                        (* `Payment initiation failed: ${errorMessage}` *)
| JsError (msg : string)
| ErrNotFound (what : string) (id : string)    (* `Event ${eventId} not found`, ... *)
| ErrNotCompleted (eventId : string)           (* `Event ${eventId} is not completed` *)
| ErrPayoutAlreadyCompleted (eventId : string)
                        (* `Payout already completed for event ${eventId}` *)
| ValidationError (model path : string)
                        (* `${model} validation failed: ${path}: Path `${path}` is required.` *)
| TypeError.                                   (* property read on null/undefined *)


(** ** Handlers: store passing with exceptions

    [M S A] is a computation over a store [S] that returns an [A] or throws.
    The store that comes back with an exception holds every write made
    before the [throw]. *)

Definition M (S A : Type) : Type := S -> (Exn + A) * S.

Definition ret {S A} (a : A) : M S A := fun s => (inr a, s).

Definition throw {S A} (e : Exn) : M S A := fun s => (inl e, s).

Definition bind {S A B} (m : M S A) (k : A -> M S B) : M S B :=
  fun s => match m s with
           | (inl e, s') => (inl e, s')
           | (inr a, s') => k a s'
           end.

(** [try { m } catch (error) { h error }] *)
Definition tryCatch {S A} (m : M S A) (h : Exn -> M S A) : M S A :=
  fun s => match m s with
           | (inl e, s') => h e s'
           | (inr a, s') => (inr a, s')
           end.

Definition gets {S A} (f : S -> A) : M S A := fun s => (inr (f s), s).

Definition modify {S} (f : S -> S) : M S unit := fun s => (inr tt, f s).

(** A pure step that may throw. *)
Definition liftE {S A} (r : Exn + A) : M S A := fun s => (r, s).

Notation "x <- m ;; k" := (bind m (fun x => k))
  (at level 100, m at next level, right associativity).
Notation "m1 ;;; m2" := (bind m1 (fun _ => m2))
  (at level 100, right associativity).

(** [for (const x of l) { acc = await f(acc, x) }] *)
Fixpoint forOf {S A B} (l : list A) (f : B -> A -> M S B) (acc : B) : M S B :=
  match l with
  | [] => ret acc
  | x :: l' => acc' <- f acc x ;; forOf l' f acc'
  end.

(** ** Documents

    Field names follow the schemas; where two schemas share a field name
    ([_id], [status], [eventId], [name]) the field carries its schema as a
    prefix, and so do the values of the status enumerations that share a
    word ([completed], [pending], ...). *)

Section Model.
Context {N : Type} `{!JsNumber N}.

(** [models/event.model.js] *)

Record Tier := {
  tier_name : string;
  tier_price : N;
  quantityAvailable : Z;
  quantitySold : Z
}.

Record Event := {
  event_id : string;
  event_hostId : string;
  event_name : string;
  tiers : list Tier;
  eventDateTime : Z;
  event_status : EventStatus;
  ticketsSold : Z;
  payoutProcessed : bool
}.

(** [models/order.model.js] *)

Record TicketItem := {
  tierName : string;
  quantity : Z;
  unitPrice : N;
  totalPrice : N
}.

Record Buyer := { buyerName : string; buyerEmail : string; buyerPhone : string }.

Inductive OrderNote :=
| NotePaymentFailed (resultDesc : string)   (* `Payment failed: ${metadata}` *)
| NotePaymentReceived (receipt : option string).
                       (* `Payment received via M-Pesa. Receipt: ${...}` *)

Record Order := {
  order_id : string;
  orderNumber : string;
  order_buyer : Buyer;
  order_eventId : string;
  order_hostId : string;
  order_tickets : list TicketItem;
  subtotal : N;
  platformFee : N;
  processingFee : N;
  totalAmount : N;
  hostAmount : N;
  platformAmount : N;
  paymentStatus : PaymentStatus;
  mpesaReference : option string;
  checkoutRequestId : option string;
  paymentDate : option Z;
  notes : option OrderNote
}.

(** [models/ticket.model.js] *)

Record Ticket := {
  ticket_id : string;          (* _id *)
  ticketId : string;           (* the printed TKT-... number *)
  ticket_eventId : string;
  ticket_buyerName : string;
  ticket_tierName : string;
  qrCodeId : string;
  ticket_status : TicketStatus;
  activationTime : option Z;
  scannedAt : option Z;
  scannedBy : option string
}.

(** [models/payout.model.js] *)

Record PayoutMeta := {
  meta_ticketSales : Z;
  meta_platformFee : N;
  meta_processingFee : N;
  meta_netAmount : N
}.

Record Payout := {
  payout_id : string;          (* _id *)
  payoutId : string;           (* the PYT-... number *)
  payout_hostId : string;
  payout_eventId : string;
  payout_amount : N;
  payout_status : PayoutStatus;
  payout_completedAt : option Z;
  payout_metadata : PayoutMeta
}.

(** ** [Event] instance methods *)

(** [this.tiers.find(t => t.name === tierName)] *)
Definition findTier (tn : string) (ts : list Tier) : option Tier :=
  List.find (fun t => String.eqb (tier_name t) tn) ts.

(** The in-place update of the tier object that [find] returned: the first
    tier of that name. *)
Fixpoint updTier (tn : string) (f : Tier -> Tier) (ts : list Tier) : list Tier :=
  match ts with
  | [] => []
  | t :: ts' =>
      if String.eqb (tier_name t) tn then f t :: ts' else t :: updTier tn f ts'
  end.

Definition setSold (v : Z) (t : Tier) : Tier :=
  {| tier_name := tier_name t; tier_price := tier_price t;
     quantityAvailable := quantityAvailable t; quantitySold := v |}.

Definition setTiersSold (ts : list Tier) (sold : Z) (e : Event) : Event :=
  {| event_id := event_id e; event_hostId := event_hostId e;
     event_name := event_name e; tiers := ts;
     eventDateTime := eventDateTime e; event_status := event_status e;
     ticketsSold := sold; payoutProcessed := payoutProcessed e |}.

(** [eventSchema.methods.reserveTickets], as a function on the document
    ([this]); the caller's [save] is in [reserveTicketsM] below. *)
Definition reserveTickets (this : Event) (tn : string) (qty : Z) : Exn + Event :=
  match findTier tn (tiers this) with
  | None => inl (ErrTierNotFound tn)
  | Some tier =>
      let available := quantityAvailable tier - quantitySold tier in
      if available <? qty then inl (ErrOnlyAvailable available tn)
      else inr (setTiersSold
                  (updTier tn (fun t => setSold (quantitySold t + qty) t) (tiers this))
                  (ticketsSold this + qty) this)
  end.

(** [eventSchema.methods.releaseTickets] *)
Definition releaseTickets (this : Event) (tn : string) (qty : Z) : Exn + Event :=
  match findTier tn (tiers this) with
  | None => inl (ErrTierNotFound tn)
  | Some tier =>
      inr (setTiersSold
             (updTier tn (fun t => setSold (Z.max 0 (quantitySold t - qty)) t) (tiers this))
             (Z.max 0 (ticketsSold this - qty)) this)
  end.

(** The counter of the tier an operation on [tn] reads and writes. *)
Definition soldOf (tn : string) (e : Event) : option Z :=
  quantitySold <$> findTier tn (tiers e).

Definition capacityOf (tn : string) (e : Event) : option Z :=
  quantityAvailable <$> findTier tn (tiers e).

(** [0 <= sold <= capacity] *)
Definition tier_ok (t : Tier) : Prop := 0 <= quantitySold t <= quantityAvailable t.

(** A call on the inventory of one event, and the document after a sequence of
    calls; a call that throws leaves the document as it was. *)
Inductive InventoryOp :=
| OpReserve (tn : string) (qty : Z)
| OpRelease (tn : string) (qty : Z).

Definition op_qty (o : InventoryOp) : Z :=
  match o with OpReserve _ q | OpRelease _ q => q end.

Definition applyOp (e : Event) (o : InventoryOp) : Event :=
  match o with
  | OpReserve tn q => match reserveTickets e tn q with inr e' => e' | inl _ => e end
  | OpRelease tn q => match releaseTickets e tn q with inr e' => e' | inl _ => e end
  end.

Definition applyOps (e : Event) (os : list InventoryOp) : Event :=
  fold_left applyOp os e.

(** ** The store: MongoDB collections, Redis, BullMQ queues *)

(** A ticket as [scanTicket] holds it: the document and the [event] field
    the handler reads ([ticket.event?.eventDateTime], [ticket.event?.name]).
    The field is there only if the JSON the handler parsed from the cache
    carries one; a ticket read from the collection has none, since the
    Ticket schema declares no [event] path for [populate] to fill. *)
Record EventView := {
  view_id : string;
  view_name : string;
  view_eventDateTime : option Z
}.

Record TicketView := {
  view_ticket : Ticket;
  view_event : option EventView
}.

Inductive RedisVal :=
| RLocked                                         (* 'locked' *)
| RReservation (eventId : string) (tickets : list (string * Z)) (expiresAt : Z)
| RCheckout (orderId : string) (amount : N) (phone : string)
| RTicket (doc : option TicketView).              (* JSON of a ticket, or of null *)

(** Every key the handlers write is written with [EX]. *)
Record RedisEntry := { rvalue : RedisVal; rexpires : Z }.

Record ScanLogEntry := {
  log_ticketId : string;
  log_qrCodeId : string;
  log_scannedAt : Z;
  log_scannedBy : string
}.

(** The payload of a 'generate-tickets' job. *)
Record TicketJob := {
  job_orderId : string;
  job_eventId : string;
  job_buyer : Buyer;
  job_tickets : list TicketItem
}.

Record Store := {
  events : list Event;
  orders : list Order;
  ticketDocs : list Ticket;
  payouts : list Payout;
  users : list string;                 (* the ids of the User documents *)
  redis : gmap string RedisEntry;
  scansLog : list ScanLogEntry;        (* the Redis list 'scans:log', newest first *)
  ticketQueue : list TicketJob;        (* jobs added to 'ticket-generation' *)
  activationQueue : list (string * Z)  (* 'activate-ticket' jobs: ticket _id, delay *)
}.

Definition withEvents (f : list Event -> list Event) (s : Store) : Store :=
  {| events := f (events s); orders := orders s; ticketDocs := ticketDocs s;
     payouts := payouts s; users := users s; redis := redis s;
     scansLog := scansLog s; ticketQueue := ticketQueue s;
     activationQueue := activationQueue s |}.

Definition withOrders (f : list Order -> list Order) (s : Store) : Store :=
  {| events := events s; orders := f (orders s); ticketDocs := ticketDocs s;
     payouts := payouts s; users := users s; redis := redis s;
     scansLog := scansLog s; ticketQueue := ticketQueue s;
     activationQueue := activationQueue s |}.

Definition withTicketDocs (f : list Ticket -> list Ticket) (s : Store) : Store :=
  {| events := events s; orders := orders s; ticketDocs := f (ticketDocs s);
     payouts := payouts s; users := users s; redis := redis s;
     scansLog := scansLog s; ticketQueue := ticketQueue s;
     activationQueue := activationQueue s |}.

Definition withPayouts (f : list Payout -> list Payout) (s : Store) : Store :=
  {| events := events s; orders := orders s; ticketDocs := ticketDocs s;
     payouts := f (payouts s); users := users s; redis := redis s;
     scansLog := scansLog s; ticketQueue := ticketQueue s;
     activationQueue := activationQueue s |}.

Definition withRedis (f : gmap string RedisEntry -> gmap string RedisEntry)
    (s : Store) : Store :=
  {| events := events s; orders := orders s; ticketDocs := ticketDocs s;
     payouts := payouts s; users := users s; redis := f (redis s);
     scansLog := scansLog s; ticketQueue := ticketQueue s;
     activationQueue := activationQueue s |}.

Definition withScansLog (f : list ScanLogEntry -> list ScanLogEntry) (s : Store) : Store :=
  {| events := events s; orders := orders s; ticketDocs := ticketDocs s;
     payouts := payouts s; users := users s; redis := redis s;
     scansLog := f (scansLog s); ticketQueue := ticketQueue s;
     activationQueue := activationQueue s |}.

Definition withTicketQueue (f : list TicketJob -> list TicketJob) (s : Store) : Store :=
  {| events := events s; orders := orders s; ticketDocs := ticketDocs s;
     payouts := payouts s; users := users s; redis := redis s;
     scansLog := scansLog s; ticketQueue := f (ticketQueue s);
     activationQueue := activationQueue s |}.

Definition withActivationQueue (f : list (string * Z) -> list (string * Z))
    (s : Store) : Store :=
  {| events := events s; orders := orders s; ticketDocs := ticketDocs s;
     payouts := payouts s; users := users s; redis := redis s;
     scansLog := scansLog s; ticketQueue := ticketQueue s;
     activationQueue := f (activationQueue s) |}.

(** *** Redis commands ([config/redis.js]) *)

(** [GET key] at time [now]. *)
Definition redisLookup (now : Z) (k : string) (r : gmap string RedisEntry)
    : option RedisVal :=
  match r !! k with
  | Some en => if now <? rexpires en then Some (rvalue en) else None
  | None => None
  end.

Definition redisGet (now : Z) (k : string) : M Store (option RedisVal) :=
  gets (fun s => redisLookup now k (redis s)).

(** [SET key value EX seconds] *)
Definition redisSetEX (now : Z) (k : string) (v : RedisVal) (seconds : Z)
    : M Store unit :=
  modify (withRedis (fun r => <[k := {| rvalue := v; rexpires := now + seconds * 1000 |}]> r)).

(** [SET key value NX EX seconds]: [true] when the key was set. *)
Definition redisSetNXEX (now : Z) (k : string) (v : RedisVal) (seconds : Z)
    : M Store bool :=
  cur <- redisGet now k ;;
  match cur with
  | Some _ => ret false
  | None => redisSetEX now k v seconds ;;; ret true
  end.

Definition redisDel (k : string) : M Store unit :=
  modify (withRedis (fun r => delete k r)).

(** *** Mongoose queries *)

Definition findEventById (id : string) : M Store (option Event) :=
  gets (fun s => List.find (fun e => String.eqb (event_id e) id) (events s)).

(** [event.save()]: the document replaces the stored one of the same [_id]. *)
Definition putEvent (e : Event) (l : list Event) : list Event :=
  map (fun e0 => if String.eqb (event_id e0) (event_id e) then e else e0) l.

Definition saveEvent (e : Event) : M Store unit :=
  modify (withEvents (putEvent e)).

Definition findOrderById (id : string) : M Store (option Order) :=
  gets (fun s => List.find (fun o => String.eqb (order_id o) id) (orders s)).

Definition findOrderByNumber (num : string) : M Store (option Order) :=
  gets (fun s => List.find (fun o => String.eqb (orderNumber o) num) (orders s)).

Definition putOrder (o : Order) (l : list Order) : list Order :=
  map (fun o0 => if String.eqb (order_id o0) (order_id o) then o else o0) l.

Definition saveOrder (o : Order) : M Store unit :=
  modify (withOrders (putOrder o)).

(** The update of the first document matching [p], as [findOneAndUpdate]
    does it; the result is the updated document ([{ new: true }]) or null. *)
Fixpoint updateFirst {A} (p : A -> bool) (f : A -> A) (l : list A) : list A :=
  match l with
  | [] => []
  | x :: l' => if p x then f x :: l' else x :: updateFirst p f l'
  end.

(** [await event.reserveTickets(...)]: the method, then its [this.save()]. *)
Definition reserveTicketsM (this : Event) (tn : string) (qty : Z) : M Store Event :=
  e' <- liftE (reserveTickets this tn qty) ;;
  saveEvent e' ;;; ret e'.

Definition releaseTicketsM (this : Event) (tn : string) (qty : Z) : M Store Event :=
  e' <- liftE (releaseTickets this tn qty) ;;
  saveEvent e' ;;; ret e'.

(** ** [orderSchema]: validation and [pre('save')] *)

(** A String path that a document does not set.  The [required] validator
    rejects an unset path and the empty string alike, and [!this.path] is
    true of both, so the two are not told apart. *)
Definition unset : string := EmptyString.

Definition isSet (v : string) : bool := negb (String.eqb v unset).

Definition setTotals (sub pf prf tot host plat : N) (o : Order) : Order :=
  {| order_id := order_id o; orderNumber := orderNumber o;
     order_buyer := order_buyer o; order_eventId := order_eventId o;
     order_hostId := order_hostId o; order_tickets := order_tickets o;
     subtotal := sub; platformFee := pf; processingFee := prf;
     totalAmount := tot; hostAmount := host; platformAmount := plat;
     paymentStatus := paymentStatus o; mpesaReference := mpesaReference o;
     checkoutRequestId := checkoutRequestId o; paymentDate := paymentDate o;
     notes := notes o |}.

(** The body of [if (this.isModified('tickets')) { ... }]. *)
Definition recomputeTotals (o : Order) : Order :=
  let sub := fold_left (fun sum ticket => nadd sum (totalPrice ticket)) (order_tickets o) nzero in
  let pf := nmul sub c0_05 in
  let prf := nmul sub c0_02 in
  setTotals sub pf prf (nadd sub prf) (nmul sub c0_95) (nmul sub c0_05) o.

Definition setOrderNumber (num : string) (o : Order) : Order :=
  {| order_id := order_id o; orderNumber := num;
     order_buyer := order_buyer o; order_eventId := order_eventId o;
     order_hostId := order_hostId o; order_tickets := order_tickets o;
     subtotal := subtotal o; platformFee := platformFee o;
     processingFee := processingFee o; totalAmount := totalAmount o;
     hostAmount := hostAmount o; platformAmount := platformAmount o;
     paymentStatus := paymentStatus o; mpesaReference := mpesaReference o;
     checkoutRequestId := checkoutRequestId o; paymentDate := paymentDate o;
     notes := notes o |}.

(** The hook, on a document that is new or not and whose [tickets] path is
    modified or not.  [generated] is the number
    [`ORD-${timestamp}-${random}`] the first branch draws. *)
Definition orderPreSave (isNew ticketsModified : bool) (generated : string) (o : Order)
    : Order :=
  let o1 := if isNew && negb (isSet (orderNumber o))
            then setOrderNumber generated o else o in
  if ticketsModified then recomputeTotals o1 else o1.

(** [Order.create(doc)]: the document is new and every path it sets is
    modified.  It is validated first: [orderNumber] is [required: true].
    (The other required paths are set by the one caller, [createCheckout].)
    A valid document goes through the hook and is inserted. *)
Definition orderCreate (generated : string) (o : Order) : M Store Order :=
  if isSet (orderNumber o)
  then
    let o' := orderPreSave true true generated o in
    modify (withOrders (fun os => (os ++ [o'])%list)) ;;; ret o'
  else throw (ValidationError "Order" "orderNumber").

(** ** [checkoutController] *)

Record CheckoutItem := { item_tierName : string; item_quantity : Z }.

Record CheckoutRequest := {
  req_eventId : string;
  req_tickets : list CheckoutItem;
  req_buyer : Buyer
}.

Record CheckoutCreated := {
  created_id : string;
  created_orderNumber : string;
  created_totalAmount : N;
  created_tickets : list TicketItem;
  reservationExpiresIn : Z
}.

Definition lockKey (eventId : string) : string := "event:" +:+ eventId +:+ ":lock".
Definition reservationKey (orderId : string) : string := "reservation:" +:+ orderId.
Definition checkoutKey (checkoutRequestId : string) : string :=
  "mpesa:checkout:" +:+ checkoutRequestId.

(** The body of [for (const item of tickets)] in [createCheckout]: one
    iteration on the running [subtotal] and [ticketDetails]. *)
Definition checkItem (event : Event) (acc : N * list TicketItem) (item : CheckoutItem)
    : Exn + (N * list TicketItem) :=
  let '(subtotal, ticketDetails) := acc in
  match findTier (item_tierName item) (tiers event) with
  | None => inl (AppErrorTierNotFound (item_tierName item) 400)
  | Some tier =>
      let available := quantityAvailable tier - quantitySold tier in
      if available <? item_quantity item
      then inl (AppErrorOnlyAvailable available (item_tierName item) 400)
      else
        let tierTotal := nmul (tier_price tier) (nofZ (item_quantity item)) in
        inr (nadd subtotal tierTotal,
             (ticketDetails ++ [ {| tierName := item_tierName item;
                                    quantity := item_quantity item;
                                    unitPrice := tier_price tier;
                                    totalPrice := tierTotal |} ])%list)
  end.

(** [// Calculate fees] and the document [createCheckout] passes to
    [Order.create]: it sets no [orderNumber]. *)
Definition checkoutOrder (newId : string) (event : Event) (buyer : Buyer)
    (subtotal : N) (ticketDetails : list TicketItem) : Order :=
  let platformFee := nmul subtotal c0_05 in
  let processingFee := nmul subtotal c0_02 in
  let totalAmount := nadd subtotal processingFee in
  let hostAmount := nmul subtotal c0_95 in
  {| order_id := newId; orderNumber := unset;
     order_buyer := buyer;
     order_eventId := event_id event;
     order_hostId := event_hostId event;
     order_tickets := ticketDetails;
     subtotal := subtotal; platformFee := platformFee;
     processingFee := processingFee; totalAmount := totalAmount;
     hostAmount := hostAmount; platformAmount := platformFee;
     paymentStatus := pay_pending; mpesaReference := None;
     checkoutRequestId := None; paymentDate := None;
     notes := None |}.

(** [createCheckout].  [now] is the clock, [newId] the [_id] of the new
    document and [newNumber] the order number its [pre('save')] hook would
    draw. *)
Definition createCheckout (now : Z) (newId newNumber : string) (req : CheckoutRequest)
    : M Store CheckoutCreated :=
  ev <- findEventById (req_eventId req) ;;
  match ev with
  | None => throw (AppError "Event not found" 404)
  | Some event =>
      match event_status event with
      | ev_published =>
          lock <- redisSetNXEX now (lockKey (req_eventId req)) RLocked 5 ;;
          if negb lock
          then throw (AppError "Event is being processed by another request" 409)
          else
            tryCatch
              (acc <- forOf (req_tickets req)
                        (fun acc item => liftE (checkItem event acc item)) (nzero, []) ;;
               let '(subtotal, ticketDetails) := acc in
               let doc := checkoutOrder newId event (req_buyer req) subtotal ticketDetails in
               order <- orderCreate newNumber doc ;;
               redisSetEX now (reservationKey (order_id order))
                 (RReservation (event_id event)
                    (map (fun i => (item_tierName i, item_quantity i)) (req_tickets req))
                    (now + 10 * 60 * 1000))
                 600 ;;;
               redisDel (lockKey (req_eventId req)) ;;;
               ret {| created_id := order_id order;
                      created_orderNumber := orderNumber order;
                      created_totalAmount := totalAmount doc;
                      created_tickets := ticketDetails;
                      reservationExpiresIn := 600 |})
              (fun error => redisDel (lockKey (req_eventId req)) ;;; throw error)
      | _ => throw (AppError "Event is not published for ticket sales" 400)
      end
  end.

(** *** The payment gateway

    What the STK push endpoint answers is the environment's choice. *)
Inductive StkOutcome :=
| StkAccepted (checkoutRequestId customerMessage : string)  (* ResponseCode '0' *)
| StkRejected (responseCode responseDescription : string)
| StkUnreachable.                                           (* the request throws *)

Inductive StkResult :=
| StkSuccess (checkoutRequestId customerMessage : string)
| StkFailure (errorCode errorMessage : string).

(** The payer's number as the request and the checkout record carry it:
    [phone.replace(/^0/, '254').replace(/^\+/, '')], then the prefix 254 when
    the result does not start with it. *)
Definition replaceLeadingZero (phone : string) : string :=
  match phone with
  | String "0"%char rest => "254" +:+ rest
  | _ => phone
  end.

Definition dropLeadingPlus (phone : string) : string :=
  match phone with
  | String "+"%char rest => rest
  | _ => phone
  end.

Definition startsWith254 (phone : string) : bool :=
  match phone with
  | String "2"%char (String "5"%char (String "4"%char _)) => true
  | _ => false
  end.

Definition formatPhone (phone : string) : string :=
  let formattedPhone := dropLeadingPlus (replaceLeadingZero phone) in
  if startsWith254 formattedPhone then formattedPhone else "254" +:+ formattedPhone.

(** [paymentService.initiateSTKPush(amount, phone, orderId, description)] *)
Definition initiateSTKPush (now : Z) (gateway : StkOutcome)
    (amount : N) (phone orderId : string) : M Store StkResult :=
  match gateway with
  | StkAccepted cid msg =>
      redisSetEX now (checkoutKey cid) (RCheckout orderId amount (formatPhone phone)) 3600 ;;;
      ret (StkSuccess cid msg)
  | StkRejected code desc => ret (StkFailure code desc)
  | StkUnreachable => throw (JsError "Failed to initiate M-Pesa payment")
  end.

Record PaymentInitiated := {
  init_checkoutRequestId : string;
  init_customerMessage : string;
  init_orderId : string
}.

Definition setCheckoutRequestId (cid : string) (o : Order) : Order :=
  {| order_id := order_id o; orderNumber := orderNumber o;
     order_buyer := order_buyer o; order_eventId := order_eventId o;
     order_hostId := order_hostId o; order_tickets := order_tickets o;
     subtotal := subtotal o; platformFee := platformFee o;
     processingFee := processingFee o; totalAmount := totalAmount o;
     hostAmount := hostAmount o; platformAmount := platformAmount o;
     paymentStatus := paymentStatus o; mpesaReference := mpesaReference o;
     checkoutRequestId := Some cid; paymentDate := paymentDate o;
     notes := notes o |}.

(** [for (const ticket of order.tickets) await event.reserveTickets(...)]
    on the document [event], which every iteration mutates and saves. *)
Definition reserveAll (event : Event) (items : list TicketItem) : M Store Event :=
  forOf items (fun ev ticket => reserveTicketsM ev (tierName ticket) (quantity ticket)) event.

Definition releaseAll (event : Event) (items : list TicketItem) : M Store Event :=
  forOf items (fun ev ticket => releaseTicketsM ev (tierName ticket) (quantity ticket)) event.

(** [initiatePayment] *)
Definition initiatePayment (now : Z) (gateway : StkOutcome) (orderId phone : string)
    : M Store PaymentInitiated :=
  o <- findOrderById orderId ;;
  match o with
  | None => throw (AppError "Order not found" 404)
  | Some order =>
      match paymentStatus order with
      | pay_pending =>
          reservation <- redisGet now (reservationKey (order_id order)) ;;
          match reservation with
          | None => throw (AppError "Ticket reservation has expired" 400)
          | Some _ =>
              ev <- findEventById (order_eventId order) ;;
              match ev with
              | None =>
                  (* [event] is null: the first [event.reserveTickets] is a
                     TypeError; with no line item the loop does not run and
                     the failure is in the release loop or not at all *)
                  match order_tickets order with
                  | _ :: _ => throw TypeError
                  | [] =>
                      redisDel (reservationKey (order_id order)) ;;;
                      paymentResult <- initiateSTKPush now gateway
                        (totalAmount order) phone (orderNumber order) ;;
                      match paymentResult with
                      | StkFailure _ msg => throw (AppErrorPaymentInitiation msg 400)
                      | StkSuccess cid cmsg =>
                          saveOrder (setCheckoutRequestId cid order) ;;;
                          ret {| init_checkoutRequestId := cid;
                                 init_customerMessage := cmsg;
                                 init_orderId := orderNumber order |}
                      end
                  end
              | Some event =>
                  event1 <- reserveAll event (order_tickets order) ;;
                  redisDel (reservationKey (order_id order)) ;;;
                  paymentResult <- initiateSTKPush now gateway
                    (totalAmount order) phone (orderNumber order) ;;
                  match paymentResult with
                  | StkFailure _ msg =>
                      releaseAll event1 (order_tickets order) ;;;
                      throw (AppErrorPaymentInitiation msg 400)
                  | StkSuccess cid cmsg =>
                      saveOrder (setCheckoutRequestId cid order) ;;;
                      ret {| init_checkoutRequestId := cid;
                             init_customerMessage := cmsg;
                             init_orderId := orderNumber order |}
                  end
              end
          end
      | st => throw (AppErrorOrderAlready st 400)
      end
  end.

(** ** [PaymentService.validateCallback] and [POST /callback] *)

(** [CallbackMetadata.Item] flattened by name; a name that is not among the
    items reads as undefined. *)
Record CallbackMetadata := {
  MpesaReceiptNumber : option string;
  PhoneNumber : option string;
  Amount : option N;
  TransactionDate : option string
}.

Definition noMetadata : CallbackMetadata :=
  {| MpesaReceiptNumber := None; PhoneNumber := None;
     Amount := None; TransactionDate := None |}.

(** [payload.Body.stkCallback] *)
Record StkCallback := {
  ResultCode : Z;
  ResultDesc : option string;
  CheckoutRequestID : string;
  callbackMetadata : option CallbackMetadata
}.

Inductive CallbackResult :=
| CallbackFailure (checkoutRequestId : string) (resultCode : Z) (resultDesc : option string)
| CallbackSuccess (orderId : string) (mpesaReceiptNumber : option string)
    (amountPaid : option N) (checkoutRequestId : string).

(** The record under a [mpesa:checkout:] key.  The key families start with
    different characters, so such a key holds nothing but what
    [initiateSTKPush] wrote. *)
Definition asCheckout (v : option RedisVal) : option (string * N) :=
  match v with
  | Some (RCheckout orderId amount _) => Some (orderId, amount)
  | _ => None
  end.

Definition markFailed (desc : string) (o : Order) : Order :=
  {| order_id := order_id o; orderNumber := orderNumber o;
     order_buyer := order_buyer o; order_eventId := order_eventId o;
     order_hostId := order_hostId o; order_tickets := order_tickets o;
     subtotal := subtotal o; platformFee := platformFee o;
     processingFee := processingFee o; totalAmount := totalAmount o;
     hostAmount := hostAmount o; platformAmount := platformAmount o;
     paymentStatus := pay_failed; mpesaReference := mpesaReference o;
     checkoutRequestId := checkoutRequestId o; paymentDate := paymentDate o;
     notes := Some (NotePaymentFailed desc) |}.

Definition markCompleted (receipt : option string) (cid : string) (now : Z)
    (o : Order) : Order :=
  {| order_id := order_id o; orderNumber := orderNumber o;
     order_buyer := order_buyer o; order_eventId := order_eventId o;
     order_hostId := order_hostId o; order_tickets := order_tickets o;
     subtotal := subtotal o; platformFee := platformFee o;
     processingFee := processingFee o; totalAmount := totalAmount o;
     hostAmount := hostAmount o; platformAmount := platformAmount o;
     paymentStatus := pay_completed; mpesaReference := receipt;
     checkoutRequestId := Some cid; paymentDate := Some now;
     notes := Some (NotePaymentReceived receipt) |}.

(** [Order.findOneAndUpdate({ orderNumber }, update, { new: true })]: the
    updated document, or null when no order has that number. *)
Definition findOrderAndUpdate (num : string) (f : Order -> Order) : M Store (option Order) :=
  found <- findOrderByNumber num ;;
  match found with
  | None => ret None
  | Some o =>
      modify (withOrders (updateFirst (fun o0 => String.eqb (orderNumber o0) num) f)) ;;;
      ret (Some (f o))
  end.

(** [parseFloat(amountPaid) < parseFloat(expectedAmount)]; an undefined
    amount parses to NaN, and a comparison with NaN is false. *)
Definition shortPaid (amountPaid : option N) (expectedAmount : N) : bool :=
  match amountPaid with
  | Some paid => nltb paid expectedAmount
  | None => false
  end.

(** The [try] block of [validateCallback]. *)
Definition validateCallbackBody (now : Z) (callback : StkCallback) : M Store CallbackResult :=
  if negb (ResultCode callback =? 0) then
    (* Payment failed *)
    let metadata := default "Payment failed" (ResultDesc callback) in
    let checkoutRequestId := CheckoutRequestID callback in
    cachedData <- redisGet now (checkoutKey checkoutRequestId) ;;
    match asCheckout cachedData with
    | Some (orderId, _) =>
        findOrderAndUpdate orderId (markFailed metadata) ;;;
        o <- findOrderByNumber orderId ;;
        match o with
        | Some order =>
            ev <- findEventById (order_eventId order) ;;
            match ev with
            | Some event => releaseAll event (order_tickets order) ;;; ret tt
            | None => ret tt
            end
        | None => ret tt
        end ;;;
        redisDel (checkoutKey checkoutRequestId)
    | None => ret tt
    end ;;;
    ret (CallbackFailure checkoutRequestId (ResultCode callback) (ResultDesc callback))
  else
    (* Payment successful *)
    let metadata := default noMetadata (callbackMetadata callback) in
    let mpesaReceiptNumber := MpesaReceiptNumber metadata in
    let amountPaid := Amount metadata in
    cachedData <- redisGet now (checkoutKey (CheckoutRequestID callback)) ;;
    match asCheckout cachedData with
    | None => throw (JsError "Checkout request not found in cache")
    | Some (orderId, expectedAmount) =>
        if shortPaid amountPaid expectedAmount
        then throw (JsError "Insufficient payment")
        else
          o <- findOrderAndUpdate orderId
                 (markCompleted mpesaReceiptNumber (CheckoutRequestID callback) now) ;;
          match o with
          | None => throw (JsError "Order not found")
          | Some order =>
              (* [.populate('eventId')]: [order.eventId._id] on a missing event *)
              ev <- findEventById (order_eventId order) ;;
              match ev with
              | None => throw TypeError
              | Some event =>
                  modify (withTicketQueue (fun q =>
                    (q ++ [ {| job_orderId := order_id order;
                               job_eventId := event_id event;
                               job_buyer := order_buyer order;
                               job_tickets := order_tickets order |} ])%list)) ;;;
                  redisDel (checkoutKey (CheckoutRequestID callback)) ;;;
                  ret (CallbackSuccess (orderNumber order) mpesaReceiptNumber
                         amountPaid (CheckoutRequestID callback))
              end
          end
    end.

(** [validateCallback]: whatever the body throws is logged and replaced. *)
Definition validateCallback (now : Z) (callback : StkCallback) : M Store CallbackResult :=
  tryCatch (validateCallbackBody now callback)
    (fun error => throw (JsError "Failed to validate payment callback")).

(** The answer of [router.post('/callback')]: always HTTP 200. *)
Record CallbackAck := {
  ack_status : Z;
  ack_ResultCode : Z;
  ack_ResultDesc : option string
}.

Definition ackSuccess : CallbackAck :=
  {| ack_status := 200; ack_ResultCode := 0; ack_ResultDesc := Some "Success" |}.

Definition ackError : CallbackAck :=
  {| ack_status := 200; ack_ResultCode := 1;
     ack_ResultDesc := Some "Error processing callback" |}.

Definition callbackRoute (now : Z) (callback : StkCallback) (s : Store)
    : CallbackAck * Store :=
  match validateCallback now callback s with
  | (inr (CallbackSuccess _ _ _ _), s') => (ackSuccess, s')
  | (inr (CallbackFailure _ code desc), s') =>
      ({| ack_status := 200; ack_ResultCode := code; ack_ResultDesc := desc |}, s')
  | (inl _, s') => (ackError, s')
  end.

(** ** [ticketController.scanTicket] *)

Inductive ScanResponse :=
| ScanAlreadyUsed (ticketId : string) (scannedAt : option Z)
      (* 400 'Ticket already used' *)
| ScanRejected (status : TicketStatus) (ticketId : string)
      (* 400 `Ticket is ${ticket.status}` *)
| ScanNotYetActive (ticketId : string) (activationTime currentTime : Z)
      (* 400 'Ticket not yet active. Becomes valid 4 hours before event.' *)
| ScanSuccess (ticketId : string) (scannedAt : option Z) (status : TicketStatus).
      (* 200 'Ticket scanned successfully' *)

Definition ticketKey (qr : string) : string := "ticket:" +:+ qr.

Definition findEventIn (id : string) (l : list Event) : option Event :=
  List.find (fun e => String.eqb (event_id e) id) l.

(** [.populate('event', 'name eventDateTime location.venueName')] and
    [.populate('order', ...)] on a Ticket query: neither path is in the
    schema, the document comes back as stored and [ticket.event] is
    undefined. *)
Definition populateForScan (s : Store) (t : Ticket) : TicketView :=
  {| view_ticket := t; view_event := None |}.

(** [.populate('event', 'name location.venueName')], likewise. *)
Definition populateAfterScan (s : Store) (t : Ticket) : TicketView :=
  {| view_ticket := t; view_event := None |}.

Definition markUsed (now : Z) (scannerId : string) (t : Ticket) : Ticket :=
  {| ticket_id := ticket_id t; ticketId := ticketId t;
     ticket_eventId := ticket_eventId t; ticket_buyerName := ticket_buyerName t;
     ticket_tierName := ticket_tierName t; qrCodeId := qrCodeId t;
     ticket_status := already_used; activationTime := activationTime t;
     scannedAt := Some now; scannedBy := Some scannerId |}.

(** [Ticket.findByIdAndUpdate(id, update, { new: true }).populate(...)] *)
Definition findTicketByIdAndUpdate (id : string) (f : Ticket -> Ticket)
    : M Store (option TicketView) :=
  found <- gets (fun s => List.find (fun t => String.eqb (ticket_id t) id) (ticketDocs s)) ;;
  match found with
  | None => ret None
  | Some t =>
      modify (withTicketDocs (updateFirst (fun t0 => String.eqb (ticket_id t0) id) f)) ;;;
      gets (fun s => Some (populateAfterScan s (f t)))
  end.

(** First part of [scanTicket], up to the status checks: the ticket from the
    cache or from the collection.  A cached JSON [null] parses to null. *)
Definition scanLoad (now : Z) (qr : string) : M Store (option TicketView) :=
  cachedTicket <- redisGet now (ticketKey qr) ;;
  match cachedTicket with
  | Some (RTicket doc) => ret doc
  | Some _ => throw TypeError
  | None =>
      found <- gets (fun s => List.find (fun t => String.eqb (qrCodeId t) qr) (ticketDocs s)) ;;
      match found with
      | None => throw (AppError "Ticket not found" 404)
      | Some t =>
          ticket <- gets (fun s => populateForScan s t) ;;
          redisSetEX now (ticketKey qr) (RTicket (Some ticket)) 300 ;;;
          ret (Some ticket)
      end
  end.

(** [now < fourHoursBefore] with
    [eventTime = new Date(ticket.event?.eventDateTime)] and
    [fourHoursBefore = new Date(eventTime.getTime() - 4 * 60 * 60 * 1000)].
    Without an event, [eventTime] is [new Date(undefined)], an invalid date;
    so is [fourHoursBefore], and the comparison with it is false. *)
Definition fourHoursBefore (ticket : TicketView) : option Z :=
  match view_event ticket ≫= view_eventDateTime with
  | Some eventTime => Some (eventTime - 4 * 60 * 60 * 1000)
  | None => None
  end.

Definition beforeActivation (now : Z) (ticket : TicketView) : option Z :=
  match fourHoursBefore ticket with
  | Some fhb => if now <? fhb then Some fhb else None
  | None => None
  end.

(** The update, the cache refresh, the log entry and the answer. *)
Definition scanMarkUsed (now : Z) (scannerId qr : string) (ticket : TicketView)
    : M Store ScanResponse :=
  updatedTicket <- findTicketByIdAndUpdate (ticket_id (view_ticket ticket))
                     (markUsed now scannerId) ;;
  redisSetEX now (ticketKey qr) (RTicket updatedTicket) 300 ;;;
  modify (withScansLog (fun l =>
    {| log_ticketId := ticketId (view_ticket ticket);
       log_qrCodeId := qrCodeId (view_ticket ticket);
       log_scannedAt := now; log_scannedBy := scannerId |} :: l)) ;;;
  match updatedTicket with
  | None => throw TypeError
  | Some u =>
      ret (ScanSuccess (ticketId (view_ticket u)) (scannedAt (view_ticket u))
             (ticket_status (view_ticket u)))
  end.

(** Second part of [scanTicket]: the checks on the ticket read, then the
    unconditional update. *)
Definition scanDecide (now : Z) (scannerId qr : string) (loaded : option TicketView)
    : M Store ScanResponse :=
  match loaded with
  | None => throw TypeError
  | Some ticket =>
      match ticket_status (view_ticket ticket) with
      | already_used =>
          ret (ScanAlreadyUsed (ticketId (view_ticket ticket))
                 (scannedAt (view_ticket ticket)))
      | invalid => ret (ScanRejected invalid (ticketId (view_ticket ticket)))
      | cancelled => ret (ScanRejected cancelled (ticketId (view_ticket ticket)))
      | not_active =>
          match beforeActivation now ticket with
          | Some fhb => ret (ScanNotYetActive (ticketId (view_ticket ticket)) fhb now)
          | None => scanMarkUsed now scannerId qr ticket
          end
      | valid => scanMarkUsed now scannerId qr ticket
      end
  end.

(** [scanTicket] with no other request in between. *)
Definition scanTicket (now : Z) (scannerId qr : string) : M Store ScanResponse :=
  loaded <- scanLoad now qr ;;
  scanDecide now scannerId qr loaded.

(** *** Overlapping scans

    A scan request in flight: not started, suspended with the ticket it
    read, or answered. *)
Inductive ScanTask :=
| ScanStart (scannerId qr : string)
| ScanRead (scannerId qr : string) (loaded : option TicketView)
| ScanAnswered (answer : Exn + ScanResponse).

Definition scanStep (now : Z) (t : ScanTask) (s : Store) : ScanTask * Store :=
  match t with
  | ScanStart scannerId qr =>
      match scanLoad now qr s with
      | (inr loaded, s') => (ScanRead scannerId qr loaded, s')
      | (inl e, s') => (ScanAnswered (inl e), s')
      end
  | ScanRead scannerId qr loaded =>
      let '(r, s') := scanDecide now scannerId qr loaded s in (ScanAnswered r, s')
  | ScanAnswered r => (t, s)
  end.

(** A schedule names, step by step, the request that runs next and the clock
    at that moment. *)
Fixpoint runScans (schedule : list (nat * Z)) (tasks : list ScanTask) (s : Store)
    : list ScanTask * Store :=
  match schedule with
  | [] => (tasks, s)
  | (i, now) :: rest =>
      match tasks !! i with
      | Some t =>
          let '(t', s') := scanStep now t s in
          runScans rest (<[i := t']> tasks) s'
      | None => runScans rest tasks s
      end
  end.


(** ** [activationWorker] *)

Inductive ActivationResult :=
| ActivationSkipped (status : TicketStatus)
| ActivationDone (ticketId : string) (activatedAt : Z)
| ActivationScheduled (ticketId : string) (activationTime : Z).

Definition activateTicket (at_ : Z) (t : Ticket) : Ticket :=
  {| ticket_id := ticket_id t; ticketId := ticketId t;
     ticket_eventId := ticket_eventId t; ticket_buyerName := ticket_buyerName t;
     ticket_tierName := ticket_tierName t; qrCodeId := qrCodeId t;
     ticket_status := valid; activationTime := Some at_;
     scannedAt := scannedAt t; scannedBy := scannedBy t |}.

Definition putTicket (t : Ticket) (l : list Ticket) : list Ticket :=
  map (fun t0 => if String.eqb (ticket_id t0) (ticket_id t) then t else t0) l.

Definition activationWorker (now : Z) (jobTicketId : string) : M Store ActivationResult :=
  found <- gets (fun s => List.find (fun t => String.eqb (ticket_id t) jobTicketId) (ticketDocs s)) ;;
  match found with
  | None => throw (ErrNotFound "Ticket" jobTicketId)
  | Some ticket =>
      match ticket_status ticket with
      | not_active =>
          ev <- findEventById (ticket_eventId ticket) ;;
          match ev with
          | None => throw (ErrNotFound "Event for ticket" jobTicketId)
          | Some event =>
              let eventTime := eventDateTime event in
              let activationTime := eventTime - (4 * 60 * 60 * 1000) in
              if activationTime <=? now then
                modify (withTicketDocs (putTicket (activateTicket activationTime ticket))) ;;;
                ret (ActivationDone (ticketId ticket) now)
              else
                let timeUntilActivation := activationTime - now in
                (if 0 <? timeUntilActivation
                 then modify (withActivationQueue (fun q =>
                        (q ++ [(ticket_id ticket, timeUntilActivation)])%list))
                 else ret tt) ;;;
                ret (ActivationScheduled (ticketId ticket) activationTime)
          end
      | st => ret (ActivationSkipped st)
      end
  end.

(** ** [payoutWorker] *)

Inductive PayoutResult :=
| PayoutNoRevenue
| PayoutPaid (payoutId : string) (amount : N) (eventName : string).

(** [Order.find({ eventId, paymentStatus: 'completed' })] *)
Definition completedOrdersOf (eventId : string) (l : list Order) : list Order :=
  List.filter (fun o => String.eqb (order_eventId o) eventId
                        && match paymentStatus o with pay_completed => true | _ => false end) l.

(** [Payout.findOne({ eventId, status: 'completed' })] *)
Definition findCompletedPayout (eventId : string) (l : list Payout) : option Payout :=
  List.find (fun p => String.eqb (payout_eventId p) eventId
                      && match payout_status p with po_completed => true | _ => false end) l.

Definition putPayout (p : Payout) (l : list Payout) : list Payout :=
  map (fun p0 => if String.eqb (payout_id p0) (payout_id p) then p else p0) l.

Definition completePayout (now : Z) (p : Payout) : Payout :=
  {| payout_id := payout_id p; payoutId := payoutId p;
     payout_hostId := payout_hostId p;
     payout_eventId := payout_eventId p; payout_amount := payout_amount p;
     payout_status := po_completed; payout_completedAt := Some now;
     payout_metadata := payout_metadata p |}.

Definition setPayoutId (num : string) (p : Payout) : Payout :=
  {| payout_id := payout_id p; payoutId := num;
     payout_hostId := payout_hostId p;
     payout_eventId := payout_eventId p; payout_amount := payout_amount p;
     payout_status := payout_status p; payout_completedAt := payout_completedAt p;
     payout_metadata := payout_metadata p |}.

(** [payoutSchema.pre('save')]; [generated] is the
    [`PYT-${timestamp}-${random}`] it draws. *)
Definition payoutPreSave (isNew : bool) (generated : string) (p : Payout) : Payout :=
  if isNew && negb (isSet (payoutId p)) then setPayoutId generated p else p.

(** [Payout.create(doc)]: validated first ([payoutId] is [required: true]),
    then the hook, then the insert. *)
Definition payoutCreate (generated : string) (p : Payout) : M Store Payout :=
  if isSet (payoutId p)
  then
    let p' := payoutPreSave true generated p in
    modify (withPayouts (fun l => (l ++ [p'])%list)) ;;; ret p'
  else throw (ValidationError "Payout" "payoutId").

(** The job up to the simulated bank transfer
    ([await new Promise(resolve => setTimeout(resolve, 2000))]): [None] is the
    early return 'No revenue to payout', otherwise the Payout created in
    [processing].  [newId] is the [_id] of the new document, [newNumber] the
    payout number its hook would draw; the document passed to
    [Payout.create] sets no [payoutId]. *)
Definition payoutBegin (newId newNumber : string) (eventId : string)
    : M Store (option (Event * Payout)) :=
  ev <- findEventById eventId ;;
  match ev with
  | None => throw (ErrNotFound "Event" eventId)
  | Some event =>
      match event_status event with
      | ev_completed =>
          completedOrders <- gets (fun s => completedOrdersOf (event_id event) (orders s)) ;;
          let totalRevenue :=
            fold_left (fun sum order => nadd sum (hostAmount order)) completedOrders nzero in
          if nleb totalRevenue nzero then ret None
          else
            existingPayout <- gets (fun s => findCompletedPayout eventId (payouts s)) ;;
            match existingPayout with
            | Some _ => throw (ErrPayoutAlreadyCompleted eventId)
            | None =>
                hostFound <- gets (fun s => bool_decide (event_hostId event ∈ users s)) ;;
                if negb hostFound then throw (ErrNotFound "Host for event" eventId)
                else
                  let doc :=
                    {| payout_id := newId; payoutId := unset;
                       payout_hostId := event_hostId event;
                       payout_eventId := event_id event; payout_amount := totalRevenue;
                       payout_status := po_processing; payout_completedAt := None;
                       payout_metadata :=
                         {| meta_ticketSales := Z.of_nat (length completedOrders);
                            meta_platformFee :=
                              fold_left (fun sum order => nadd sum (platformFee order))
                                completedOrders nzero;
                            meta_processingFee :=
                              fold_left (fun sum order => nadd sum (processingFee order))
                                completedOrders nzero;
                            meta_netAmount := totalRevenue |} |} in
                  payout <- payoutCreate newNumber doc ;;
                  ret (Some (event, payout))
            end
      | _ => throw (ErrNotCompleted eventId)
      end
  end.

(** The job after the wait: the Payout is saved as [completed]. *)
Definition payoutFinish (now : Z) (started : option (Event * Payout)) : M Store PayoutResult :=
  match started with
  | None => ret PayoutNoRevenue
  | Some (event, payout) =>
      let payout' := completePayout now payout in
      modify (withPayouts (putPayout payout')) ;;;
      ret (PayoutPaid (payoutId payout') (payout_amount payout') (event_name event))
  end.

(** One run of the job with nothing in between. *)
Definition payoutWorker (now : Z) (newId newNumber eventId : string)
    : M Store PayoutResult :=
  started <- payoutBegin newId newNumber eventId ;;
  payoutFinish now started.

Definition payoutsOf (eventId : string) (s : Store) : list Payout :=
  List.filter (fun p => String.eqb (payout_eventId p) eventId) (payouts s).

(** *** Overlapping payout jobs

    A job in flight: queued, waiting for the transfer with the Payout it
    created, or returned. *)
Inductive PayoutTask :=
| PayoutQueued (newId newNumber eventId : string)
| PayoutWaiting (started : option (Event * Payout))
| PayoutReturned (r : Exn + PayoutResult).

Definition payoutStep (now : Z) (t : PayoutTask) (s : Store) : PayoutTask * Store :=
  match t with
  | PayoutQueued newId newNumber eventId =>
      match payoutBegin newId newNumber eventId s with
      | (inr started, s') => (PayoutWaiting started, s')
      | (inl e, s') => (PayoutReturned (inl e), s')
      end
  | PayoutWaiting started =>
      let '(r, s') := payoutFinish now started s in (PayoutReturned r, s')
  | PayoutReturned _ => (t, s)
  end.

Fixpoint runPayouts (schedule : list (nat * Z)) (tasks : list PayoutTask) (s : Store)
    : list PayoutTask * Store :=
  match schedule with
  | [] => (tasks, s)
  | (i, now) :: rest =>
      match tasks !! i with
      | Some t =>
          let '(t', s') := payoutStep now t s in
          runPayouts rest (<[i := t']> tasks) s'
      | None => runPayouts rest tasks s
      end
  end.

(** A job in flight that holds no Payout: it has not created one, or it has
    returned without reporting one. *)
Definition holdsNoPayout (t : PayoutTask) : Prop :=
  match t with
  | PayoutQueued _ _ _ => True
  | PayoutWaiting started => started = None
  | PayoutReturned r => forall id amount name, r <> inr (PayoutPaid id amount name)
  end.

(** *** Derived views of the loops, used to state what a handler leaves behind *)


Definition findOrderIn (id : string) (l : list Order) : option Order :=
  List.find (fun o => String.eqb (order_id o) id) l.

Definition findTicketByQr (qr : string) (l : list Ticket) : option Ticket :=
  List.find (fun t => String.eqb (qrCodeId t) qr) l.

Definition findTicketIn (id : string) (l : list Ticket) : option Ticket :=
  List.find (fun t => String.eqb (ticket_id t) id) l.

End Model.

(** ** Further handlers and model methods *)

Section ModelMore.
Context {N : Type} `{!JsNumber N}.


(** The sum of the tiers' [quantitySold]. *)
Definition sumSold (ts : list (@Tier N)) : Z :=
  fold_right (fun t acc => quantitySold t + acc) 0 ts.

(** What one line item of a checkout request needs: its tier exists and has
    that many seats left. *)
Definition lineAvailable (event : @Event N) (item : CheckoutItem) : Prop :=
  exists tier, findTier (item_tierName item) (tiers event) = Some tier
    /\ item_quantity item <= quantityAvailable tier - quantitySold tier.

(** The line [createCheckout] stores for a request item. *)
Definition pricedLine (event : @Event N) (item : CheckoutItem)
    : option (@TicketItem N) :=
  (fun tier =>
     {| tierName := item_tierName item; quantity := item_quantity item;
        unitPrice := tier_price tier;
        totalPrice := nmul (tier_price tier) (nofZ (item_quantity item)) |})
  <$> findTier (item_tierName item) (tiers event).






(** ** [ticketController.validateTicket] *)

Record ValidateResponse := {
  validated_ticketId : string;
  validated_currentStatus : TicketStatus;
  isValid : bool
}.

(** [validateTicket]: a read of the collection, never of the cache.
    [now >= new Date(eventTime.getTime() - 4 * 60 * 60 * 1000)] is false when
    the event time is missing (an invalid date). *)
Definition validateTicket (now : Z) (qr : string) : M (@Store N) ValidateResponse :=
  found <- gets (fun s => List.find (fun t => String.eqb (qrCodeId t) qr) (ticketDocs s)) ;;
  match found with
  | None => throw (AppError "Ticket not found" 404)
  | Some t =>
      ticket <- gets (fun s => populateForScan s t) ;;
      let eventTime := view_event ticket ≫= view_eventDateTime in
      let isValid :=
        match ticket_status (view_ticket ticket) with
        | valid => true
        | not_active =>
            match eventTime with
            | Some eventTime => eventTime - 4 * 60 * 60 * 1000 <=? now
            | None => false
            end
        | _ => false
        end in
      ret {| validated_ticketId := ticketId (view_ticket ticket);
             validated_currentStatus := ticket_status (view_ticket ticket);
             isValid := isValid |}
  end.

(** ** Ticket instance methods *)

Inductive TicketMethodError :=
| CannotActivate (current : TicketStatus)
      (* `Ticket cannot be activated. Current status: ${this.status}` *)
| CannotScan (current : TicketStatus).
      (* `Ticket cannot be scanned. Current status: ${this.status}` *)

Definition setTicketStatus (st : TicketStatus) (t : Ticket) : Ticket :=
  {| ticket_id := ticket_id t; ticketId := ticketId t;
     ticket_eventId := ticket_eventId t; ticket_buyerName := ticket_buyerName t;
     ticket_tierName := ticket_tierName t; qrCodeId := qrCodeId t;
     ticket_status := st; activationTime := activationTime t;
     scannedAt := scannedAt t; scannedBy := scannedBy t |}.

(** [ticketSchema.methods.activate], on the document; [save] stores it. *)
Definition ticketActivate (this : Ticket) : TicketMethodError + Ticket :=
  match ticket_status this with
  | not_active => inr (setTicketStatus valid this)
  | st => inl (CannotActivate st)
  end.

(** [ticketSchema.methods.scan] *)
Definition ticketScan (now : Z) (scannerId : string) (this : Ticket)
    : TicketMethodError + Ticket :=
  match ticket_status this with
  | valid => inr (markUsed now scannerId this)
  | st => inl (CannotScan st)
  end.

(** A call of one of the two methods, and a document through a sequence of
    calls; a call that throws leaves the document as it was. *)
Inductive TicketCall :=
| CallActivate
| CallScan (now : Z) (scannerId : string).

Definition applyCall (t : Ticket) (c : TicketCall) : Ticket :=
  match c with
  | CallActivate => match ticketActivate t with inr t' => t' | inl _ => t end
  | CallScan now scannerId =>
      match ticketScan now scannerId t with inr t' => t' | inl _ => t end
  end.

Definition callSucceeds (t : Ticket) (c : TicketCall) : bool :=
  match c with
  | CallActivate => match ticketActivate t with inr _ => true | inl _ => false end
  | CallScan now scannerId =>
      match ticketScan now scannerId t with inr _ => true | inl _ => false end
  end.

Definition isScan (c : TicketCall) : bool :=
  match c with CallScan _ _ => true | CallActivate => false end.

(** The number of [scan] calls of a sequence that return. *)
Fixpoint successfulScans (t : Ticket) (calls : list TicketCall) : nat :=
  match calls with
  | [] => 0%nat
  | c :: rest =>
      ((if isScan c && callSucceeds t c then 1 else 0)
       + successfulScans (applyCall t c) rest)%nat
  end.

(** The lifecycle order the methods enforce. *)
Definition reachableStatus (from to : TicketStatus) : bool :=
  match from, to with
  | not_active, (not_active | valid | already_used) => true
  | valid, (valid | already_used) => true
  | already_used, already_used => true
  | invalid, invalid => true
  | cancelled, cancelled => true
  | _, _ => false
  end.

(** ** [eventSchema.statics.paginate]: the page description

    (The Payout and User schemas carry the same function.)
    [options.page || 1] and [options.limit || 10]: a missing, zero or NaN
    option takes the default; the callers pass [parseInt] of the query
    parameters. *)
Definition orDefault (v : option Z) (d : Z) : Z :=
  match v with
  | Some 0 | None => d
  | Some n => n
  end.

Record PageInfo := {
  totalDocs : Z;
  totalPages : Z;
  page : Z;
  limit : Z;
  skip : Z;
  hasNextPage : bool;
  hasPrevPage : bool
}.

(** [Math.ceil(total / limit)] on integers, [limit] not zero. *)
Definition ceilDiv (total limit : Z) : Z := - ((- total) / limit).

Definition pageInfo (total : Z) (optPage optLimit : option Z) : PageInfo :=
  let page := orDefault optPage 1 in
  let limit := orDefault optLimit 10 in
  {| totalDocs := total;
     totalPages := ceilDiv total limit;
     page := page;
     limit := limit;
     skip := (page - 1) * limit;
     hasNextPage := page * limit <? total;
     hasPrevPage := 1 <? page |}.

End ModelMore.

(** ** Scenarios

    Concrete stores, on binary64 money, for the examples below. *)

(** A published event with one tier of five seats, two of them sold. *)
Definition vipEvent : @Event float :=
  {| event_id := "ev1"; event_hostId := "host1"; event_name := "Launch";
     tiers := [ {| tier_name := "VIP"; tier_price := 100%float;
                   quantityAvailable := 5; quantitySold := 2 |} ];
     eventDateTime := 1000000000; event_status := ev_published;
     ticketsSold := 2; payoutProcessed := false |}.


(** An event on sale: one VIP seat at 3, ten general-admission seats at 500,
    none sold.  It starts at 100 000 000 ms. *)
Definition launch : @Event float :=
  {| event_id := "ev1"; event_hostId := "host1"; event_name := "Launch";
     tiers := [ {| tier_name := "VIP"; tier_price := 3%float;
                   quantityAvailable := 1; quantitySold := 0 |};
                {| tier_name := "GA"; tier_price := 500%float;
                   quantityAvailable := 10; quantitySold := 0 |} ];
     eventDateTime := 100000000; event_status := ev_published;
     ticketsSold := 0; payoutProcessed := false |}.

Definition shop0 : @Store float :=
  {| events := [launch]; orders := []; ticketDocs := []; payouts := [];
     users := ["host1"]; redis := ∅; scansLog := []; ticketQueue := [];
     activationQueue := [] |}.

Definition ann : Buyer :=
  {| buyerName := "Ann"; buyerEmail := "ann@example.com"; buyerPhone := "0712345678" |}.

(** One VIP seat. *)
Definition reqOneVip : CheckoutRequest :=
  {| req_eventId := "ev1";
     req_tickets := [ {| item_tierName := "VIP"; item_quantity := 1 |} ];
     req_buyer := ann |}.


(** Two general-admission seats: subtotal 1000, total 1020. *)
Definition reqTwoGA : CheckoutRequest :=
  {| req_eventId := "ev1";
     req_tickets := [ {| item_tierName := "GA"; item_quantity := 2 |} ];
     req_buyer := ann |}.

(** A stored Order that is [pending], with the totals the schema's hook
    gives its lines. *)
Definition pendingOrderFor (id num : string) (lines : list (@TicketItem float))
    : @Order float :=
  recomputeTotals
    {| order_id := id; orderNumber := num; order_buyer := ann;
       order_eventId := "ev1"; order_hostId := "host1";
       order_tickets := lines;
       subtotal := 0%float; platformFee := 0%float; processingFee := 0%float;
       totalAmount := 0%float; hostAmount := 0%float; platformAmount := 0%float;
       paymentStatus := pay_pending; mpesaReference := None;
       checkoutRequestId := None; paymentDate := None; notes := None |}.

(** The shop with a pending Order for two general-admission seats (subtotal
    1000, total 1020) and its reservation record, written at time 0 with
    [EX 600] ... *)
Definition shopCheckedOut : @Store float :=
  {| events := [launch];
     orders := [ pendingOrderFor "o2" "ORD-2"
                   [ {| tierName := "GA"; quantity := 2;
                        unitPrice := 500%float; totalPrice := 1000%float |} ] ];
     ticketDocs := []; payouts := []; users := ["host1"];
     redis := {[ reservationKey "o2" :=
                   {| rvalue := RReservation "ev1" [("GA", 2)] 600000;
                      rexpires := 600000 |} ]};
     scansLog := []; ticketQueue := []; activationQueue := [] |}.


(** ... and [shopCheckedOut] after the payment was initiated one second
    later, the gateway answering with the checkout request id [ws_CO_2]. *)
Definition shopPaying : @Store float :=
  snd (initiatePayment 1000 (StkAccepted "ws_CO_2" "sent") "o2" "0712345678"
         shopCheckedOut).



(** A valid ticket for [launch], and the store at the gates. *)
Definition gateTicket : Ticket :=
  {| ticket_id := "t1"; ticketId := "TKT-1"; ticket_eventId := "ev1";
     ticket_buyerName := "Ann"; ticket_tierName := "GA"; qrCodeId := "QR-1";
     ticket_status := valid; activationTime := None;
     scannedAt := None; scannedBy := None |}.

Definition gate0 : @Store float :=
  {| events := [launch]; orders := []; ticketDocs := [gateTicket]; payouts := [];
     users := ["host1"]; redis := ∅; scansLog := []; ticketQueue := [];
     activationQueue := [] |}.

(** Two gate devices read the same code. *)
Definition twoScans : list ScanTask :=
  [ScanStart "gateA" "QR-1"; ScanStart "gateB" "QR-1"].

(** The same ticket before its activation, not yet cached. *)
Definition sleepingTicket : Ticket :=
  {| ticket_id := "t1"; ticketId := "TKT-1"; ticket_eventId := "ev1";
     ticket_buyerName := "Ann"; ticket_tierName := "GA"; qrCodeId := "QR-1";
     ticket_status := not_active; activationTime := None;
     scannedAt := None; scannedBy := None |}.

Definition gateEarly : @Store float :=
  {| events := [launch]; orders := []; ticketDocs := [sleepingTicket]; payouts := [];
     users := ["host1"]; redis := ∅; scansLog := []; ticketQueue := [];
     activationQueue := [] |}.

(** The event over, with one completed Order whose host share is 950. *)
Definition finished : @Event float :=
  {| event_id := "ev1"; event_hostId := "host1"; event_name := "Launch";
     tiers := [ {| tier_name := "GA"; tier_price := 500%float;
                   quantityAvailable := 10; quantitySold := 2 |} ];
     eventDateTime := 100000000; event_status := ev_completed;
     ticketsSold := 2; payoutProcessed := true |}.

Definition paidOrder : @Order float :=
  {| order_id := "o2"; orderNumber := "ORD-2"; order_buyer := ann;
     order_eventId := "ev1"; order_hostId := "host1";
     order_tickets := [ {| tierName := "GA"; quantity := 2;
                           unitPrice := 500%float; totalPrice := 1000%float |} ];
     subtotal := 1000%float; platformFee := 50%float; processingFee := 20%float;
     totalAmount := 1020%float; hostAmount := 950%float; platformAmount := 50%float;
     paymentStatus := pay_completed; mpesaReference := Some "RCPT1";
     checkoutRequestId := Some "ws_CO_2"; paymentDate := Some 2000;
     notes := Some (NotePaymentReceived (Some "RCPT1")) |}.

Definition bank0 : @Store float :=
  {| events := [finished]; orders := [paidOrder]; ticketDocs := []; payouts := [];
     users := ["host1"]; redis := ∅; scansLog := []; ticketQueue := [];
     activationQueue := [] |}.

(** The payout job of the event, fired twice. *)
Definition twoPayoutJobs : list (@PayoutTask float) :=
  [PayoutQueued "p1" "PYT-1" "ev1"; PayoutQueued "p2" "PYT-2" "ev1"].

(** The event on sale again, with money read as exact rationals. *)
Definition launchQ : @Event Q :=
  {| event_id := "ev1"; event_hostId := "host1"; event_name := "Launch";
     tiers := [ {| tier_name := "VIP"; tier_price := 3%Q;
                   quantityAvailable := 1; quantitySold := 0 |} ];
     eventDateTime := 100000000; event_status := ev_published;
     ticketsSold := 0; payoutProcessed := false |}.

Definition shopQ : @Store Q :=
  {| events := [launchQ]; orders := []; ticketDocs := []; payouts := [];
     users := ["host1"]; redis := ∅; scansLog := []; ticketQueue := [];
     activationQueue := [] |}.

(** ** Further scenarios *)



(** * Properties *)

(** ** Inventory counters ([reserveTickets], [releaseTickets]) *)

Section InventoryFacts.
Context {N : Type} `{!JsNumber N}.
Implicit Types (e : @Event N) (t : @Tier N) (ts : list (@Tier N)) (tn : string).

Lemma findTier_updTier tn tn' (f : Tier -> Tier) ts :
  (forall t, tier_name (f t) = tier_name t) ->
  findTier tn (updTier tn' f ts) =
    if String.eqb tn' tn then f <$> findTier tn ts else findTier tn ts.
Proof.
  intros Hf. unfold findTier. induction ts as [|t ts IH].
  - simpl. by destruct (String.eqb tn' tn).
  - cbn [updTier find].
    destruct (String.eqb (tier_name t) tn') eqn:E1; cbn [find].
    + apply String.eqb_eq in E1. subst tn'. rewrite Hf.
      destruct (String.eqb (tier_name t) tn) eqn:E2; done.
    + destruct (String.eqb (tier_name t) tn) eqn:E2; [|done].
      apply String.eqb_eq in E2. subst tn.
      rewrite (String.eqb_sym tn'), E1. done.
Qed.

Lemma updTier_Forall (P : Tier -> Prop) tn (f : Tier -> Tier) ts :
  Forall P ts ->
  (forall t, findTier tn ts = Some t -> P t -> P (f t)) ->
  Forall P (updTier tn f ts).
Proof.
  induction 1 as [|t ts Ht Hts IH]; cbn [updTier]; intros Hf; [constructor|].
  destruct (String.eqb (tier_name t) tn) eqn:E.
  - constructor; [|done]. apply Hf; [|done]. unfold findTier. cbn [find]. by rewrite E.
  - constructor; [done|]. apply IH. intros t' Hfind. apply Hf.
    unfold findTier in *. cbn [find]. by rewrite E.
Qed.

Lemma findTier_Forall (P : Tier -> Prop) tn ts t :
  Forall P ts -> findTier tn ts = Some t -> P t.
Proof.
  intros HP Hf. apply find_some in Hf as [Hin _].
  rewrite Forall_forall in HP. apply HP. by apply list_elem_of_In.
Qed.

Lemma reserveTickets_inr e tn q e' :
  reserveTickets e tn q = inr e' ->
  exists tier, findTier tn (tiers e) = Some tier
    /\ q <= quantityAvailable tier - quantitySold tier
    /\ e' = setTiersSold
              (updTier tn (fun t => setSold (quantitySold t + q) t) (tiers e))
              (ticketsSold e + q) e.
Proof.
  unfold reserveTickets. destruct (findTier tn (tiers e)) as [tier|]; [|done].
  destruct (Z.ltb_spec (quantityAvailable tier - quantitySold tier) q); [done|].
  intros [= <-]. eauto.
Qed.

Lemma releaseTickets_inr e tn q e' :
  releaseTickets e tn q = inr e' ->
  exists tier, findTier tn (tiers e) = Some tier
    /\ e' = setTiersSold
              (updTier tn (fun t => setSold (Z.max 0 (quantitySold t - q)) t) (tiers e))
              (Z.max 0 (ticketsSold e - q)) e.
Proof.
  unfold releaseTickets. destruct (findTier tn (tiers e)) as [tier|]; [|done].
  intros [= <-]. eauto.
Qed.

Lemma reserveTickets_bounds e tn q e' :
  0 <= q -> Forall tier_ok (tiers e) ->
  reserveTickets e tn q = inr e' -> Forall tier_ok (tiers e').
Proof.
  intros Hq Hok (tier & Hfind & Hle & ->)%reserveTickets_inr. simpl.
  apply updTier_Forall; [done|].
  intros t Ht. rewrite Hfind in Ht. injection Ht as <-.
  unfold tier_ok. simpl. lia.
Qed.

Lemma releaseTickets_bounds e tn q e' :
  0 <= q -> Forall tier_ok (tiers e) ->
  releaseTickets e tn q = inr e' -> Forall tier_ok (tiers e').
Proof.
  intros Hq Hok (tier & Hfind & ->)%releaseTickets_inr. simpl.
  apply updTier_Forall; [done|].
  intros t _. unfold tier_ok. simpl. lia.
Qed.

Lemma applyOp_bounds e o :
  0 <= op_qty o -> Forall tier_ok (tiers e) -> Forall tier_ok (tiers (applyOp e o)).
Proof.
  destruct o as [tn q|tn q]; simpl; intros Hq Hok.
  - destruct (reserveTickets e tn q) eqn:E; [done|]. by eapply reserveTickets_bounds.
  - destruct (releaseTickets e tn q) eqn:E; [done|]. by eapply releaseTickets_bounds.
Qed.

Lemma applyOps_bounds os e :
  Forall (fun o => 0 <= op_qty o) os ->
  Forall tier_ok (tiers e) -> Forall tier_ok (tiers (applyOps e os)).
Proof.
  unfold applyOps. revert e. induction os as [|o os IH]; simpl; intros e Hq Hok; [done|].
  inversion Hq; subst. apply IH; [done|]. by apply applyOp_bounds.
Qed.

Lemma reserveTickets_soldOf e tn q e' tn' :
  reserveTickets e tn q = inr e' ->
  soldOf tn' e' =
    if String.eqb tn tn' then (fun s => s + q) <$> soldOf tn' e else soldOf tn' e.
Proof.
  intros (tier & Hfind & Hle & ->)%reserveTickets_inr. unfold soldOf. simpl.
  rewrite findTier_updTier by done.
  destruct (String.eqb tn tn'); [|done]. by destruct (findTier tn' (tiers e)).
Qed.

Lemma releaseTickets_soldOf e tn q e' tn' :
  releaseTickets e tn q = inr e' ->
  soldOf tn' e' =
    if String.eqb tn tn' then (fun s => Z.max 0 (s - q)) <$> soldOf tn' e
    else soldOf tn' e.
Proof.
  intros (tier & Hfind & ->)%releaseTickets_inr. unfold soldOf. simpl.
  rewrite findTier_updTier by done.
  destruct (String.eqb tn tn'); [|done]. by destruct (findTier tn' (tiers e)).
Qed.

(** C2 (as amended).  For every tier, [0 <= sold <= capacity] holds after
    every sequence of [reserveTickets] / [releaseTickets] calls with
    non-negative quantities; a [reserveTickets] that returns raises the
    counter of its tier by exactly the quantity, within the capacity, and a
    [releaseTickets] that returns lowers it to [max 0 (sold - quantity)]:
    the counter is bounded, but it is not monotone. *)
Theorem C2_sold_bounded_reserve_up_release_down e :
  Forall tier_ok (tiers e) ->
  (forall os, Forall (fun o => 0 <= op_qty o) os ->
     Forall tier_ok (tiers (applyOps e os)))
  /\ (forall tn q e', 0 <= q -> reserveTickets e tn q = inr e' ->
        exists s c, soldOf tn e = Some s /\ capacityOf tn e = Some c
          /\ soldOf tn e' = Some (s + q) /\ s <= s + q <= c)
  /\ (forall tn q e', 0 <= q -> releaseTickets e tn q = inr e' ->
        exists s, soldOf tn e = Some s
          /\ soldOf tn e' = Some (Z.max 0 (s - q)) /\ 0 <= Z.max 0 (s - q) <= s).
Proof.
  intros Hok. split; [|split].
  - intros os Hq. by apply applyOps_bounds.
  - intros tn q e' Hq Hres.
    pose proof (reserveTickets_soldOf _ _ _ _ tn Hres) as Hs.
    rewrite String.eqb_refl in Hs.
    apply reserveTickets_inr in Hres as (tier & Hfind & Hle & _).
    pose proof (findTier_Forall _ _ _ _ Hok Hfind) as Htier.
    exists (quantitySold tier), (quantityAvailable tier).
    unfold soldOf, capacityOf in *. rewrite Hfind in *. simpl in *.
    unfold tier_ok in Htier. repeat split; try done; lia.
  - intros tn q e' Hq Hrel.
    pose proof (releaseTickets_soldOf _ _ _ _ tn Hrel) as Hs.
    rewrite String.eqb_refl in Hs.
    apply releaseTickets_inr in Hrel as (tier & Hfind & _).
    pose proof (findTier_Forall _ _ _ _ Hok Hfind) as Htier.
    exists (quantitySold tier).
    unfold soldOf in *. rewrite Hfind in *. simpl in *.
    unfold tier_ok in Htier. repeat split; try done; lia.
Qed.

End InventoryFacts.

(** The bound on [vipEvent] after three calls. *)
Lemma C2_witness :
  Forall tier_ok (tiers vipEvent) /\
  Forall tier_ok (tiers (applyOps vipEvent
     [OpReserve "VIP" 3; OpReserve "VIP" 1; OpRelease "VIP" 2])).
Proof.
  assert (H : Forall (tier_ok (N:=float)) (tiers vipEvent)).
  { repeat constructor; simpl; lia. }
  split; [exact H|].
  apply (proj1 (C2_sold_bounded_reserve_up_release_down vipEvent H)).
  repeat constructor; simpl; lia.
Defined.

(** C2, counterexample: [sold] does not only increase.  Releasing one seat
    of a tier with two sold leaves one sold. *)
Lemma C2_sold_decreases_on_release :
  exists e', releaseTickets vipEvent "VIP" 1 = inr e'
    /\ soldOf "VIP" vipEvent = Some 2 /\ soldOf "VIP" e' = Some 1.
Proof. eexists. repeat split. Qed.

(** ** Checkout: [createCheckout], [initiatePayment] *)

Ltac run_handler :=
  unfold bind, ret, throw, gets, modify, liftE, tryCatch in *; simpl in *.

Section CheckoutFacts.
Context {N : Type} `{!JsNumber N}.
Implicit Types (s : @Store N) (e event : @Event N) (o order : @Order N).







(** A loop of pure steps leaves the store alone. *)
Lemma forOf_liftE_store {S A B} (g : B -> A -> Exn + B) l : forall acc (st : S),
  snd (forOf l (fun acc x => liftE (g acc x)) acc st) = st.
Proof.
  induction l as [|x l IH]; intros acc st; cbn [forOf]; [done|].
  run_handler. destruct (g acc x); [done|]. apply IH.
Qed.

(** The running [subtotal] of the item loop is the sum the [pre('save')]
    hook recomputes from [ticketDetails]. *)
Lemma forOf_checkItem_subtotal event l : forall acc acc' s s',
  fst acc = fold_left (fun sum t => nadd sum (totalPrice t)) (snd acc) nzero ->
  forOf l (fun acc item => liftE (checkItem event acc item)) acc s = (inr acc', s') ->
  fst acc' = fold_left (fun sum t => nadd sum (totalPrice t)) (snd acc') nzero.
Proof.
  induction l as [|item l IH]; intros [sub det] acc' s s' Hacc; cbn [forOf].
  - run_handler. by intros [= <- <-].
  - run_handler. unfold checkItem at 1.
    destruct (findTier _ _) as [tier|]; [|done].
    destruct (_ <? _); [done|]. apply IH. simpl in *.
    by rewrite fold_left_app, <- Hacc.
Qed.




Lemma find_app_fresh {A} (p : A -> bool) (l : list A) (x : A) :
  Forall (fun y => p y = false) l -> p x = true -> find p (l ++ [x]) = Some x.
Proof.
  induction 1 as [|y l Hy _ IH]; simpl; intros Hx.
  - by rewrite Hx.
  - rewrite Hy. by apply IH.
Qed.

(** [initiatePayment] on a pending order whose reservation key is gone:
    the request is rejected and nothing is written. *)
Lemma initiatePayment_expired now gateway orderId phone s order :
  findOrderIn orderId (orders s) = Some order ->
  paymentStatus order = pay_pending ->
  redisLookup now (reservationKey (order_id order)) (redis s) = None ->
  initiatePayment now gateway orderId phone s =
    (inl (AppError "Ticket reservation has expired" 400), s).
Proof.
  unfold initiatePayment, findOrderById, findOrderIn, redisGet. run_handler.
  intros -> -> ->. done.
Qed.



(** C4 (as amended).  Nothing sweeps an expired reservation.  A pending
    Order whose reservation record is gone from Redis, or is past the
    expiry instant Redis keeps for it: an [initiatePayment] at that time is
    rejected with 'Ticket reservation has expired' and writes nothing.  The
    tier counters are as they were and the Order is still [pending]. *)
Theorem C4_expired_reservation_rejected_order_stays_pending
    t gateway orderId phone s order :
  findOrderIn orderId (orders s) = Some order ->
  paymentStatus order = pay_pending ->
  (forall en, redis s !! reservationKey (order_id order) = Some en -> rexpires en <= t) ->
  let out := initiatePayment t gateway orderId phone s in
  fst out = inl (AppError "Ticket reservation has expired" 400)
  /\ snd out = s
  /\ events (snd out) = events s
  /\ paymentStatus <$> findOrderIn orderId (orders (snd out)) = Some pay_pending.
Proof.
  intros Hfind Hst Hexp. cbv zeta.
  assert (Hgone : redisLookup t (reservationKey (order_id order)) (redis s) = None).
  { unfold redisLookup. destruct (redis s !! _) as [en|] eqn:E; [|done].
    specialize (Hexp en eq_refl). destruct (Z.ltb_spec t (rexpires en)); [lia|done]. }
  rewrite (initiatePayment_expired _ _ _ _ _ _ Hfind Hst Hgone). simpl.
  repeat split. by rewrite Hfind, <- Hst.
Qed.

End CheckoutFacts.


Example checkout_of_two_seats_is_rejected :
  createCheckout 0 "o2" "ORD-2" reqTwoGA shop0
  = (inl (ValidationError "Order" "orderNumber"), shop0).
Proof. vm_compute. reflexivity. Qed.

(** The pending Order of [shopCheckedOut], whose record expires at 600 000,
    paid for at that instant. *)
Lemma C4_witness :
  fst (initiatePayment 600000 (StkAccepted "ws_CO_2" "sent") "o2" "0712345678"
         shopCheckedOut)
    = inl (AppError "Ticket reservation has expired" 400)
  /\ snd (initiatePayment 600000 (StkAccepted "ws_CO_2" "sent") "o2" "0712345678"
            shopCheckedOut) = shopCheckedOut
  /\ events (snd (initiatePayment 600000 (StkAccepted "ws_CO_2" "sent") "o2" "0712345678"
                    shopCheckedOut)) = events shopCheckedOut
  /\ paymentStatus <$>
       findOrderIn "o2"
         (orders (snd (initiatePayment 600000 (StkAccepted "ws_CO_2" "sent") "o2"
                         "0712345678" shopCheckedOut))) = Some pay_pending.
Proof.
  apply (C4_expired_reservation_rejected_order_stays_pending
           600000 (StkAccepted "ws_CO_2" "sent") "o2" "0712345678" shopCheckedOut
           (pendingOrderFor "o2" "ORD-2"
              [ {| tierName := "GA"; quantity := 2;
                   unitPrice := 500%float; totalPrice := 1000%float |} ])).
  - reflexivity.
  - reflexivity.
  - intros en Hen. vm_compute in Hen. injection Hen as <-. simpl. lia.
Defined.

(** C4, counterexample.  The reservation record is readable until 599 999
    and gone at 600 000; the read that finds it gone rejects the payment,
    and the Order is [pending], not [failed]. *)
Lemma C4_expired_order_is_not_failed :
  let out := initiatePayment 600000 (StkAccepted "ws_CO_2" "sent") "o2" "0712345678"
               shopCheckedOut in
  map paymentStatus (orders shopCheckedOut) = [pay_pending]
  /\ redisLookup 599999 (reservationKey "o2") (redis shopCheckedOut) <> None
  /\ redisLookup 600000 (reservationKey "o2") (redis shopCheckedOut) = None
  /\ fst out = inl (AppError "Ticket reservation has expired" 400)
  /\ map paymentStatus (orders (snd out)) = [pay_pending].
Proof. cbv zeta. repeat split; try (vm_compute; reflexivity). vm_compute. discriminate. Qed.


(** ** Order totals *)



(** The same in numbers: subtotal 3, host 2.85, platform 0.15, total 3.06. *)
Example exact_totals_of_one_vip_seat :
  forOf (req_tickets reqOneVip) (fun acc item => liftE (checkItem launchQ acc item))
    (0%Q, []) shopQ
  = (inr (3 # 1, [ {| tierName := "VIP"; quantity := 1;
                      unitPrice := 3 # 1; totalPrice := 3 # 1 |} ])%Q, shopQ)
  /\ (fun o => (subtotal o, hostAmount o, platformAmount o, totalAmount o))
       (checkoutOrder "o3" launchQ ann (3 # 1)%Q
          [ {| tierName := "VIP"; quantity := 1; unitPrice := 3 # 1; totalPrice := 3 # 1 |} ]%Q)
     = (3 # 1, 285 # 100, 15 # 100, 306 # 100)%Q.
Proof. split; vm_compute; reflexivity. Qed.


(** ** Payment notifications: [validateCallback], [POST /callback] *)

Section PaymentFacts.
Context {N : Type} `{!JsNumber N}.
Implicit Types (s : @Store N) (callback : @StkCallback N).


(** A success notification that is short-paid: likewise. *)
Lemma validateCallback_shortPaid now callback s orderId expected :
  ResultCode callback = 0 ->
  asCheckout (redisLookup now (checkoutKey (CheckoutRequestID callback)) (redis s))
    = Some (orderId, expected) ->
  shortPaid (Amount (default noMetadata (callbackMetadata callback))) expected = true ->
  validateCallback now callback s =
    (inl (JsError "Failed to validate payment callback"), s).
Proof.
  intros Hcode Hrec Hshort.
  unfold validateCallback, validateCallbackBody, redisGet. run_handler.
  rewrite Hcode. simpl. rewrite Hrec. by rewrite Hshort.
Qed.



End PaymentFacts.




(** The sibling path: a failure notification does release the seats. *)
Example failure_notification_releases :
  let failure := {| ResultCode := 1032; ResultDesc := Some "Request cancelled by user";
                    CheckoutRequestID := "ws_CO_2"; callbackMetadata := None |} in
  let out := callbackRoute 2000 failure shopPaying in
  map paymentStatus (orders (snd out)) = [pay_failed]
  /\ map (soldOf "GA") (events (snd out)) = [Some 0].
Proof. cbv zeta. split; vm_compute; reflexivity. Qed.

(** ** Tickets: [scanTicket], [activationWorker] *)

Section TicketFacts.
Context {N : Type} `{!JsNumber N}.
Implicit Types (s : @Store N) (tk : Ticket).

Lemma find_updateFirst {A} (p : A -> bool) (f : A -> A) l x :
  find p l = Some x -> p (f x) = true -> find p (updateFirst p f l) = Some (f x).
Proof.
  induction l as [|y l IH]; simpl; [done|].
  destruct (p y) eqn:E.
  - intros [= ->] Hf. simpl. by rewrite Hf.
  - intros Hx Hf. simpl. rewrite E. by apply IH.
Qed.

Lemma findTicketIn_putTicket tk tk' l :
  findTicketIn (ticket_id tk) l = Some tk ->
  ticket_id tk' = ticket_id tk ->
  findTicketIn (ticket_id tk) (putTicket tk' l) = Some tk'.
Proof.
  unfold findTicketIn, putTicket. intros Hfind Hid. rewrite Hid.
  induction l as [|y l IH]; simpl in *; [done|].
  destruct (String.eqb (ticket_id y) (ticket_id tk)) eqn:E; simpl.
  - by rewrite Hid, String.eqb_refl.
  - rewrite E. by apply IH.
Qed.

(** C8.  A [not_active] ticket of an event that starts at [eventStart],
    not in the cache, scanned strictly before [eventStart - 4h].  The
    ticket the handler reads has no [event] field, so the instant it
    compares the clock with is an invalid date and the comparison is
    false: the scan is not rejected as 'not yet active', it is answered
    200 and the ticket is stored as [already_used].  The activation job run
    at the same time reads the Event by the ticket's [eventId], finds that
    the instant [eventStart - 4h] has not come, re-schedules itself for it
    and leaves the ticket [not_active]; from that instant on it stores the
    ticket as [valid] with [activationTime = eventStart - 4h]. *)
Theorem C8_early_scan_is_not_rejected now scannerId qr s tk ev :
  redisLookup now (ticketKey qr) (redis s) = None ->
  findTicketByQr qr (ticketDocs s) = Some tk ->
  findTicketIn (ticket_id tk) (ticketDocs s) = Some tk ->
  ticket_status tk = not_active ->
  findEventIn (ticket_eventId tk) (events s) = Some ev ->
  now < eventDateTime ev - 4 * 60 * 60 * 1000 ->
  let activation := eventDateTime ev - 4 * 60 * 60 * 1000 in
  let scan := scanTicket now scannerId qr s in
  let job := activationWorker now (ticket_id tk) s in
  fst scan = inr (ScanSuccess (ticketId tk) (Some now) already_used)
  /\ (forall tid at_ cur, fst scan <> inr (ScanNotYetActive tid at_ cur))
  /\ (exists tk', findTicketIn (ticket_id tk) (ticketDocs (snd scan)) = Some tk'
        /\ ticket_status tk' = already_used
        /\ scannedAt tk' = Some now /\ scannedBy tk' = Some scannerId)
  /\ fst job = inr (ActivationScheduled (ticketId tk) activation)
  /\ ticketDocs (snd job) = ticketDocs s
  /\ (forall later, activation <= later ->
        fst (activationWorker later (ticket_id tk) s)
          = inr (ActivationDone (ticketId tk) later)
        /\ exists tk', findTicketIn (ticket_id tk)
                         (ticketDocs (snd (activationWorker later (ticket_id tk) s)))
                       = Some tk'
             /\ ticket_status tk' = valid /\ activationTime tk' = Some activation).
Proof.
  intros Hcache Hqr Hid Hst Hev Hearly. cbv zeta.
  unfold scanTicket, scanLoad, scanDecide, scanMarkUsed, findTicketByIdAndUpdate,
    activationWorker, findEventById, redisGet, redisSetEX, beforeActivation, fourHoursBefore,
    populateForScan, populateAfterScan, findTicketByQr, findTicketIn, findEventIn in *.
  run_handler.
  rewrite Hcache, Hqr. simpl. rewrite Hst. simpl. rewrite Hid. simpl.
  rewrite Hst, Hev. simpl.
  destruct (Z.leb_spec (eventDateTime ev - 4 * 60 * 60 * 1000) now); [lia|].
  destruct (Z.ltb_spec 0 (eventDateTime ev - 4 * 60 * 60 * 1000 - now)); [|lia].
  simpl. split; [done|]. split; [done|]. split.
  { exists (markUsed now scannerId tk). split; [|done].
    by apply find_updateFirst; [|apply String.eqb_refl]. }
  split; [done|]. split; [done|].
  intros later Hlater.
  destruct (Z.leb_spec (eventDateTime ev - 4 * 60 * 60 * 1000) later); [|lia].
  simpl. split; [done|].
  exists (activateTicket (eventDateTime ev - 4 * 60 * 60 * 1000) tk). split; [|done].
  apply (findTicketIn_putTicket tk); done.
Qed.

End TicketFacts.

(** [launch] starts at 100 000 000, so its tickets activate at 85 600 000.
    The scan of [sleepingTicket] one minute before that instant. *)
Lemma C8_witness :
  fst (scanTicket 85540000 "gateA" "QR-1" gateEarly)
    = inr (ScanSuccess "TKT-1" (Some 85540000) already_used)
  /\ map ticket_status (ticketDocs (snd (scanTicket 85540000 "gateA" "QR-1" gateEarly)))
     = [already_used]
  /\ fst (activationWorker 85540000 "t1" gateEarly)
     = inr (ActivationScheduled "TKT-1" 85600000)
  /\ map ticket_status (ticketDocs (snd (activationWorker 85540000 "t1" gateEarly)))
     = [not_active].
Proof.
  pose proof (C8_early_scan_is_not_rejected (N:=float) 85540000 "gateA" "QR-1"
                gateEarly sleepingTicket launch
                eq_refl eq_refl eq_refl eq_refl eq_refl ltac:(simpl; lia)) as H.
  cbv zeta in H. destruct H as (H1 & _ & _ & H4 & H5 & _).
  split; [exact H1|]. split; [vm_compute; reflexivity|].
  split; [exact H4|]. exact (f_equal (map ticket_status) H5).
Defined.

(** By contrast, a cached ticket that carries its event is held back: the
    check itself works when the field is there. *)
Example early_scan_of_a_cached_ticket_with_its_event :
  let cached := {| view_ticket := sleepingTicket;
                   view_event := Some {| view_id := "ev1"; view_name := "Launch";
                                         view_eventDateTime := Some 100000000 |} |} in
  fst (scanDecide (N:=float) 85540000 "gateA" "QR-1" (Some cached) gateEarly)
  = inr (ScanNotYetActive "TKT-1" 85600000 85540000).
Proof. vm_compute. reflexivity. Qed.

(** Scans that do not overlap: the first succeeds, the second is told
    'Ticket already used'. *)
Example scans_in_turn_one_success :
  fst (runScans [(0%nat, 5000); (0%nat, 5001); (1%nat, 5002); (1%nat, 5003)] twoScans gate0)
  = [ScanAnswered (inr (ScanSuccess "TKT-1" (Some 5001) already_used));
     ScanAnswered (inr (ScanAlreadyUsed "TKT-1" (Some 5001)))].
Proof. vm_compute. reflexivity. Qed.


(** ** Payouts: [payoutWorker] *)

Section PayoutFacts.
Context {N : Type} `{!JsNumber N}.
Implicit Types (s : @Store N).

(** The first part of the job writes nothing, and does not get past
    [Payout.create]: it throws, or returns early for lack of revenue. *)
Lemma payoutBegin_readonly newId newNumber eventId s :
  snd (payoutBegin newId newNumber eventId s) = s
  /\ (forall started, fst (payoutBegin newId newNumber eventId s) = inr started ->
        started = None).
Proof.
  unfold payoutBegin, findEventById, payoutCreate, isSet, unset. run_handler.
  destruct (find _ (events s)) as [event|]; [|done].
  destruct (event_status event); try done.
  destruct (nleb _ _); [split; [done|by intros ? [= <-]]|].
  destruct (findCompletedPayout _ _); [done|].
  destruct (bool_decide _); done.
Qed.

Lemma payoutStep_holdsNoPayout now t s :
  holdsNoPayout t ->
  holdsNoPayout (fst (payoutStep now t s)) /\ snd (payoutStep now t s) = s.
Proof.
  destruct t as [newId newNumber eventId|started|r]; simpl; intros Ht.
  - destruct (payoutBegin_readonly newId newNumber eventId s) as [Hs Hr].
    destruct (payoutBegin newId newNumber eventId s) as [[e|started] s1]; simpl in *.
    + by split.
    + split; [by apply Hr|done].
  - subst started. unfold payoutFinish, ret. simpl. by split.
  - by split.
Qed.

Lemma runPayouts_holdsNoPayout schedule : forall tasks s,
  Forall holdsNoPayout tasks ->
  Forall holdsNoPayout (fst (runPayouts schedule tasks s))
  /\ snd (runPayouts schedule tasks s) = s.
Proof.
  induction schedule as [|[i now] rest IH]; intros tasks s Htasks; cbn [runPayouts].
  - by split.
  - destruct (tasks !! i) as [t|] eqn:Ei; [|by apply IH].
    assert (Ht : holdsNoPayout t) by (eapply Forall_lookup_1; eauto).
    destruct (payoutStep_holdsNoPayout now t s Ht) as [Ht' Hs].
    destruct (payoutStep now t s) as [t' s1]. simpl in *. subst s1.
    apply IH. by apply Forall_insert.
Qed.

(** C6.  No run of the payout job creates a Payout.  The document the job
    passes to [Payout.create] has no [payoutId], which the schema requires
    and only the [pre('save')] hook would generate; validation comes first
    and rejects it.  So however many jobs are fired, for whatever events,
    and however their runs interleave: the store is as it was, every
    Event has the Payout records it had, and no run reports a payout. *)
Theorem C6_payout_jobs_create_no_payout
    (schedule : list (nat * Z)) (jobs : list (string * string * string)) s :
  let tasks := map (fun job => PayoutQueued job.1.1 job.1.2 job.2) jobs in
  let out := runPayouts schedule tasks s in
  payouts (snd out) = payouts s
  /\ (forall eventId, payoutsOf eventId (snd out) = payoutsOf eventId s)
  /\ snd out = s
  /\ (forall i id amount name,
        fst out !! i <> Some (PayoutReturned (inr (PayoutPaid id amount name)))).
Proof.
  cbv zeta.
  destruct (runPayouts_holdsNoPayout schedule
              (map (fun job => PayoutQueued job.1.1 job.1.2 job.2) jobs) s) as [Hall Hs].
  { induction jobs as [|job jobs IH]; constructor; done. }
  rewrite Hs. repeat split.
  intros i id amount name Hi.
  eapply Forall_lookup_1 in Hall; [|exact Hi]. simpl in Hall. by eapply Hall.
Qed.

End PayoutFacts.

(** The job of [bank0] fired twice, the runs overlapping or not: both end
    with the validation error and there is no Payout. *)
Example payout_jobs_end_with_the_validation_error :
  runPayouts [(0%nat, 3000); (1%nat, 3500); (0%nat, 5000); (1%nat, 5500)] twoPayoutJobs bank0
  = ([PayoutReturned (inl (ValidationError "Payout" "payoutId"));
      PayoutReturned (inl (ValidationError "Payout" "payoutId"))], bank0)
  /\ runPayouts [(0%nat, 3000); (0%nat, 5000); (1%nat, 6000)] twoPayoutJobs bank0
  = ([PayoutReturned (inl (ValidationError "Payout" "payoutId"));
      PayoutReturned (inl (ValidationError "Payout" "payoutId"))], bank0).
Proof. split; vm_compute; reflexivity. Qed.

(** * Further properties *)

(** ** Inventory *)

Section InventoryMore.
Context {N : Type} `{!JsNumber N}.
Implicit Types (e : @Event N) (t : @Tier N) (ts : list (@Tier N)) (tn : string).








End InventoryMore.



(** Releasing more than a tier has sold: the tier stops at 0 and the event
    counter goes its own way. *)
Example over_release_splits_the_counters :
  let twoTiers : @Event float :=
    {| event_id := "ev9"; event_hostId := "host1"; event_name := "Two tiers";
       tiers := [ {| tier_name := "A"; tier_price := 10%float;
                     quantityAvailable := 5; quantitySold := 1 |};
                  {| tier_name := "B"; tier_price := 10%float;
                     quantityAvailable := 5; quantitySold := 4 |} ];
       eventDateTime := 0; event_status := ev_published;
       ticketsSold := 5; payoutProcessed := false |} in
  exists e', releaseTickets twoTiers "A" 3 = inr e'
    /\ sumSold (tiers e') = 4 /\ ticketsSold e' = 2.
Proof. cbv zeta. eexists. repeat split. Qed.

(** ** Checkout *)

Section CheckoutMore.
Context {N : Type} `{!JsNumber N}.
Implicit Types (s : @Store N) (event : @Event N) (o order : @Order N).

Lemma checkItem_inr event acc item acc' :
  checkItem event acc item = inr acc' ->
  lineAvailable event item
  /\ exists line, pricedLine event item = Some line
       /\ acc' = (nadd (fst acc) (totalPrice line), (snd acc ++ [line])%list).
Proof.
  unfold checkItem, lineAvailable, pricedLine. destruct acc as [sub det].
  destruct (findTier _ _) as [tier|]; [|done].
  destruct (Z.ltb_spec (quantityAvailable tier - quantitySold tier) (item_quantity item));
    [done|].
  intros [= <-]. split; [by exists tier|]. by eexists.
Qed.


(** The item loop of [createCheckout] returns exactly when every line fits,
    and then it has priced every line. *)
Lemma checkLoop_inr event l : forall acc acc' s s',
  forOf l (fun acc item => liftE (checkItem event acc item)) acc s = (inr acc', s') ->
  Forall (lineAvailable event) l
  /\ map Some (snd acc') = (map Some (snd acc) ++ map (pricedLine event) l)%list.
Proof.
  induction l as [|item l IH]; intros acc acc' s s'; cbn [forOf].
  - run_handler. intros [= <- <-]. split; [constructor|]. by rewrite app_nil_r.
  - run_handler. destruct (checkItem event acc item) as [|acc1] eqn:E; [done|].
    intros Hrun. apply IH in Hrun as [Hall Hmap].
    apply checkItem_inr in E as (Hline & line & Hpriced & ->).
    split; [by constructor|].
    rewrite Hmap. cbn [snd map]. rewrite map_app, <- app_assoc. cbn. by rewrite Hpriced.
Qed.





(** X5.  The lines [createCheckout] builds for the Order: when its loop
    accepts the request there is one line per requested item, in the order
    of the request, priced at the tier's price at that moment ([unitPrice]
    is the tier's [price] and [totalPrice] is [price * quantity]); the
    subtotal is the sum of the lines, and the loop has written nothing. *)
Theorem X5_checkout_lines_are_priced_from_the_tiers
    (event : @Event N) (items : list CheckoutItem) s sub det s' :
  forOf items (fun acc item => liftE (checkItem event acc item)) (nzero, []) s
    = (inr (sub, det), s') ->
  map Some det = map (pricedLine event) items
  /\ sub = fold_left (fun sum t => nadd sum (totalPrice t)) det nzero
  /\ s' = s.
Proof.
  intros Hloop.
  destruct (checkLoop_inr event items _ _ _ _ Hloop) as [_ Hmap].
  pose proof (forOf_checkItem_subtotal event items (nzero, []) (sub, det) s s'
                eq_refl Hloop) as Hsub.
  pose proof (forOf_liftE_store (checkItem event) items (nzero, []) s) as Hst.
  rewrite Hloop in Hst. simpl in *. done.
Qed.

End CheckoutMore.



Lemma X5_witness :
  map Some [ {| tierName := "GA"; quantity := 2;
                unitPrice := 500%float; totalPrice := 1000%float |} ]
    = map (pricedLine launch) (req_tickets reqTwoGA)
  /\ 1000%float = fold_left (fun sum t => nadd sum (totalPrice t))
                    [ {| tierName := "GA"; quantity := 2;
                         unitPrice := 500%float; totalPrice := 1000%float |} ] 0%float.
Proof.
  destruct (X5_checkout_lines_are_priced_from_the_tiers (N:=float) launch
              (req_tickets reqTwoGA) shop0 1000%float
              [ {| tierName := "GA"; quantity := 2;
                   unitPrice := 500%float; totalPrice := 1000%float |} ] shop0)
    as (H1 & H2 & _).
  - vm_compute. reflexivity.
  - split; [exact H1|exact H2].
Defined.

(** ** Payment initiation *)

Section InitiateMore.
Context {N : Type} `{!JsNumber N}.
Implicit Types (s : @Store N) (e event : @Event N) (o order : @Order N)
  (items : list (@TicketItem N)).







End InitiateMore.



Section RollbackMore.
Context {N : Type} `{!JsNumber N}.
Implicit Types (s : @Store N) (e event : @Event N) (o order : @Order N)
  (items : list (@TicketItem N)).








End RollbackMore.


(** ** Payment notifications *)

Section NotificationMore.
Context {N : Type} `{!JsNumber N}.
Implicit Types (s : @Store N) (e event : @Event N) (o order : @Order N)
  (callback : @StkCallback N).






End NotificationMore.



Section FailureMore.
Context {N : Type} `{!JsNumber N}.
Implicit Types (s : @Store N) (e event : @Event N) (o order : @Order N)
  (callback : @StkCallback N).




End FailureMore.


(** ** Ticket scanning and activation *)

Section ScanMore.
Context {N : Type} `{!JsNumber N}.
Implicit Types (s : @Store N) (tk : Ticket).

(** X12.  [scanTicket] writes to the ticket collection, the ticket cache and
    the scan log only: events, orders, payouts and the ticket queue are
    never touched.  An answer of success always reports the status
    [already_used] stamped with the time of the scan, and a scan that is not
    answered with success has changed no ticket. *)
Theorem X12_scan_touches_tickets_only_and_only_on_success now scannerId qr s :
  let out := scanTicket now scannerId qr s in
  (events (snd out) = events s /\ orders (snd out) = orders s
   /\ payouts (snd out) = payouts s /\ ticketQueue (snd out) = ticketQueue s)
  /\ (forall tid at_ st, fst out = inr (ScanSuccess tid at_ st) ->
        st = already_used /\ at_ = Some now)
  /\ ((forall tid at_ st, fst out <> inr (ScanSuccess tid at_ st)) ->
        ticketDocs (snd out) = ticketDocs s).
Proof.
  cbv zeta.
  unfold scanTicket, scanLoad, scanDecide, scanMarkUsed, findTicketByIdAndUpdate,
    redisGet, redisSetEX.
  run_handler.
  destruct (redisLookup now (ticketKey qr) (redis s)) as [[| | |[view|]]|]; simpl;
    try (split; [done|split; [done|done]]).
  - destruct (ticket_status (view_ticket view)); simpl;
      try (split; [done|split; [done|done]]).
    + destruct (beforeActivation now view); simpl; [split; [done|split; [done|done]]|].
      destruct (find _ (ticketDocs s)) as [doc|]; simpl.
      * split; [done|]. split; [by intros ? ? ? [= <- <- <-]|].
        intros Hno. by destruct (Hno _ _ _ eq_refl).
      * split; [done|split; [done|done]].
    + destruct (find _ (ticketDocs s)) as [doc|]; simpl.
      * split; [done|]. split; [by intros ? ? ? [= <- <- <-]|].
        intros Hno. by destruct (Hno _ _ _ eq_refl).
      * split; [done|split; [done|done]].
  - destruct (find _ (ticketDocs s)) as [t|] eqn:Hqr; simpl;
      [|split; [done|split; [done|done]]].
    destruct (ticket_status t); simpl; try (split; [done|split; [done|done]]).
    + destruct (find (fun t0 => String.eqb (ticket_id t0) (ticket_id t)) (ticketDocs s))
        as [doc|]; simpl.
      * split; [done|]. split; [by intros ? ? ? [= <- <- <-]|].
        intros Hno. by destruct (Hno _ _ _ eq_refl).
      * split; [done|split; [done|done]].
    + destruct (find (fun t0 => String.eqb (ticket_id t0) (ticket_id t)) (ticketDocs s))
        as [doc|]; simpl.
      * split; [done|]. split; [by intros ? ? ? [= <- <- <-]|].
        intros Hno. by destruct (Hno _ _ _ eq_refl).
      * split; [done|split; [done|done]].
Qed.


(** X14.  Activation is idempotent.  After a run of the activation job
    that activated its ticket, every later run for the same ticket - duplicate
    or retried job, at any time - returns the status [valid] it finds and
    writes nothing; only the ticket collection was written by the first run. *)
Theorem X14_activation_job_is_idempotent now jobTicketId s tid at_ s1 :
  activationWorker now jobTicketId s = (inr (ActivationDone tid at_), s1) ->
  (events s1 = events s /\ orders s1 = orders s /\ redis s1 = redis s
   /\ activationQueue s1 = activationQueue s)
  /\ forall now', activationWorker now' jobTicketId s1 = (inr (ActivationSkipped valid), s1).
Proof.
  unfold activationWorker, findEventById. run_handler.
  destruct (find _ (ticketDocs s)) as [ticket|] eqn:Hfind; [|done].
  destruct (ticket_status ticket) eqn:Hst; try done.
  destruct (find _ (events s)) as [event|]; [|done].
  destruct (_ <=? now); simpl.
  - intros [= _ _ <-]. split; [done|]. intros now'. cbn [ticketDocs withTicketDocs].
    assert (Hid : ticket_id ticket = jobTicketId).
    { apply find_some in Hfind as [_ Hid]. by apply String.eqb_eq in Hid. }
    subst jobTicketId.
    pose proof (findTicketIn_putTicket ticket
                  (activateTicket (eventDateTime event - 4 * 60 * 60 * 1000) ticket)
                  (ticketDocs s) Hfind eq_refl) as Hput.
    unfold findTicketIn in Hput. by rewrite Hput.
  - destruct (0 <? _); done.
Qed.

(** X15.  [validateTicket] against [scanTicket], for a ticket that the scan
    reads from the collection.  [validateTicket] writes nothing and reports
    the stored status.  It reports [isValid] exactly for a [valid] ticket,
    while the scan is answered with success for a [valid] and for a
    [not_active] ticket alike: neither handler has the event of the ticket,
    so each compares the clock with an invalid date, and both [now >= ...]
    and [now < ...] are false then. *)
Theorem X15_validate_and_scan_on_a_stored_ticket now scannerId qr s tk :
  redisLookup now (ticketKey qr) (redis s) = None ->
  findTicketByQr qr (ticketDocs s) = Some tk ->
  findTicketIn (ticket_id tk) (ticketDocs s) = Some tk ->
  exists v, validateTicket now qr s = (inr v, s)
    /\ validated_currentStatus v = ticket_status tk
    /\ (isValid v = true <-> ticket_status tk = valid)
    /\ (fst (scanTicket now scannerId qr s)
          = inr (ScanSuccess (ticketId tk) (Some now) already_used)
        <-> ticket_status tk = valid \/ ticket_status tk = not_active).
Proof.
  intros Hcache Hqr Hid.
  unfold validateTicket, scanTicket, scanLoad, scanDecide, scanMarkUsed,
    findTicketByIdAndUpdate, redisGet, redisSetEX, beforeActivation, fourHoursBefore,
    populateForScan, populateAfterScan, findTicketByQr, findTicketIn in *.
  run_handler. rewrite Hcache, Hqr. simpl.
  eexists. split; [reflexivity|]. split; [reflexivity|]. simpl.
  destruct (ticket_status tk); simpl; rewrite ?Hid; simpl;
    (split; split; first [done | by intros [|] | by auto]).
Qed.

End ScanMore.


Lemma X14_witness :
  let first := activationWorker 85600000 "t1" gateEarly in
  fst first = inr (ActivationDone "TKT-1" 85600000)
  /\ activationWorker 85700000 "t1" (snd first) = (inr (ActivationSkipped valid), snd first).
Proof.
  cbv zeta.
  assert (Hrun : activationWorker 85600000 "t1" gateEarly
                 = (inr (ActivationDone "TKT-1" 85600000),
                    snd (activationWorker 85600000 "t1" gateEarly)))
    by (vm_compute; reflexivity).
  split; [by rewrite Hrun|].
  exact (proj2 (X14_activation_job_is_idempotent _ _ _ _ _ _ Hrun) 85700000).
Defined.

Lemma X15_witness :
  exists v, validateTicket 85540000 "QR-1" gateEarly = (inr v, gateEarly)
    /\ validated_currentStatus v = not_active
    /\ isValid v = false
    /\ fst (scanTicket 85540000 "gateA" "QR-1" gateEarly)
         = inr (ScanSuccess "TKT-1" (Some 85540000) already_used).
Proof.
  destruct (X15_validate_and_scan_on_a_stored_ticket (N:=float) 85540000 "gateA" "QR-1"
              gateEarly sleepingTicket eq_refl eq_refl eq_refl)
    as (v & Hv & Hst & Hvalid & Hscan).
  exists v. split; [exact Hv|]. split; [exact Hst|]. split.
  - destruct (isValid v); [|done]. by pose proof (proj1 Hvalid eq_refl).
  - apply Hscan. by right.
Defined.

(** ** Ticket model methods and per-status counts *)

Lemma reachableStatus_refl st : reachableStatus st st = true.
Proof. by destruct st. Qed.

Lemma reachableStatus_trans a b c :
  reachableStatus a b = true -> reachableStatus b c = true -> reachableStatus a c = true.
Proof. by destruct a, b, c. Qed.

Lemma applyCall_step (t : Ticket) (c : TicketCall) :
  reachableStatus (ticket_status t) (ticket_status (applyCall t c)) = true
  /\ qrCodeId (applyCall t c) = qrCodeId t
  /\ ticket_id (applyCall t c) = ticket_id t.
Proof.
  destruct c as [|now scannerId]; unfold applyCall, ticketActivate, ticketScan;
    destruct (ticket_status t) eqn:E; cbn; rewrite ?E; done.
Qed.

Lemma successfulScans_spent (calls : list TicketCall) : forall t : Ticket,
  ticket_status t <> not_active -> ticket_status t <> valid ->
  successfulScans t calls = 0%nat.
Proof.
  induction calls as [|c calls IH]; intros t H1 H2; cbn [successfulScans]; [done|].
  assert (Hsame : applyCall t c = t /\ callSucceeds t c = false).
  { destruct c; unfold applyCall, callSucceeds, ticketActivate, ticketScan;
      destruct (ticket_status t); done. }
  destruct Hsame as [-> ->]. rewrite andb_false_r. by rewrite IH.
Qed.

(** X16.  The lifecycle the model methods enforce.  Through any sequence of
    [activate] and [scan] calls a ticket only moves forward along
    [not_active -> valid -> already_used] ([invalid] and [cancelled] tickets
    never change), at most one [scan] call of the sequence returns, and the
    ticket keeps its [_id] and its code. *)
Theorem X16_ticket_methods_move_forward_and_scan_once (calls : list TicketCall) :
  forall t : Ticket,
    let t' := fold_left applyCall calls t in
    reachableStatus (ticket_status t) (ticket_status t') = true
    /\ (successfulScans t calls <= 1)%nat
    /\ qrCodeId t' = qrCodeId t /\ ticket_id t' = ticket_id t.
Proof.
  induction calls as [|c calls IH]; intros t; cbn [fold_left successfulScans].
  - split; [apply reachableStatus_refl|]. split; [lia|done].
  - destruct (applyCall_step t c) as (Hstep & Hqr & Hid).
    destruct (IH (applyCall t c)) as (Hreach & Hscans & Hqr' & Hid').
    split; [by eapply reachableStatus_trans|]. split; [|by rewrite Hqr', Hid'].
    destruct (isScan c && callSucceeds t c) eqn:Hc; [|lia].
    apply andb_prop in Hc as [Hscan Hok].
    destruct c as [|now scannerId]; [done|].
    unfold callSucceeds, applyCall, ticketScan in *.
    destruct (ticket_status t) eqn:Hst; try done.
    rewrite successfulScans_spent; [lia|done|done].
Qed.

(** ** Pages and payer numbers *)

(** X17.  The page description of [paginate], for a page number and a page
    size of at least 1 and [total] matching documents.  [totalPages] is the
    least number of pages of that size that hold [total] documents;
    [hasNextPage] says exactly that the page is before the last one, and
    [hasPrevPage] that it is after the first; the query skips the
    [(page - 1) * limit] documents of the pages before.  A missing or zero
    option is read as page 1 and as 10 documents a page. *)
Theorem X17_page_description (total pageNo pageSize : Z) :
  0 <= total -> 1 <= pageNo -> 1 <= pageSize ->
  let info := pageInfo total (Some pageNo) (Some pageSize) in
  page info = pageNo /\ limit info = pageSize
  /\ (totalPages info - 1) * pageSize < total <= totalPages info * pageSize
  /\ (hasNextPage info = true <-> pageNo < totalPages info)
  /\ (hasPrevPage info = true <-> 1 < pageNo)
  /\ skip info = (pageNo - 1) * pageSize /\ 0 <= skip info
  /\ pageInfo total None None = pageInfo total (Some 1) (Some 10)
  /\ pageInfo total (Some 0) (Some 0) = pageInfo total (Some 1) (Some 10).
Proof.
  intros Htotal Hpage Hlimit. cbv zeta.
  unfold pageInfo. cbn [totalPages hasNextPage hasPrevPage skip page limit].
  assert (Hp : orDefault (Some pageNo) 1 = pageNo) by (destruct pageNo; simpl; lia).
  assert (Hl : orDefault (Some pageSize) 10 = pageSize) by (destruct pageSize; simpl; lia).
  rewrite Hp, Hl. unfold ceilDiv.
  pose proof (Z.div_mod (- total) pageSize ltac:(lia)) as Hdm.
  pose proof (Z.mod_pos_bound (- total) pageSize ltac:(lia)) as Hmod.
  set (q := (- total) / pageSize) in *. set (r := (- total) mod pageSize) in *.
  repeat split; try reflexivity; nia.
Qed.

Lemma X17_witness :
  (totalPages (pageInfo 45 (Some 2) (Some 20)) - 1) * 20 < 45
    <= totalPages (pageInfo 45 (Some 2) (Some 20)) * 20
  /\ hasNextPage (pageInfo 45 (Some 2) (Some 20)) = true
  /\ hasNextPage (pageInfo 45 (Some 3) (Some 20)) = false.
Proof.
  pose proof (X17_page_description 45 2 20 ltac:(lia) ltac:(lia) ltac:(lia)) as H2.
  pose proof (X17_page_description 45 3 20 ltac:(lia) ltac:(lia) ltac:(lia)) as H3.
  cbv zeta in H2, H3.
  destruct H2 as (_ & _ & Hpages & Hnext2 & _). destruct H3 as (_ & _ & _ & Hnext3 & _).
  split; [exact Hpages|]. split.
  - apply Hnext2. vm_compute. reflexivity.
  - destruct (hasNextPage (pageInfo 45 (Some 3) (Some 20))); [|reflexivity].
    pose proof (proj1 Hnext3 eq_refl) as Hbad. vm_compute in Hbad. discriminate Hbad.
Defined.

Section PhoneMore.
Context {N : Type} `{!JsNumber N}.


End PhoneMore.

(** A local number, an international one and a bare subscriber number. *)
Example payer_numbers :
  formatPhone "0712345678" = "254712345678"
  /\ formatPhone "+254712345678" = "254712345678"
  /\ formatPhone "712345678" = "254712345678".
Proof. repeat split; vm_compute; reflexivity. Qed.
